(** * The session manager and the chat panel of nebula-agent-studio

    A shallow embedding of [src/context/AuthContext.tsx], of the handlers
    of [src/components/AuthModal.tsx], of [CLIPanel], of
    [src/components/Navbar.tsx] and of [src/pages/Index.tsx], followed by
    the properties the specification states about them and by further
    properties read off the code.

    Conventions.
    - A JavaScript string is a [string]: a sequence of code units below
      256, read as Latin-1.  White space and letter case are those of
      JavaScript on these code units; strings with larger code units are
      not represented.
    - [null] and [undefined] are [None].
    - React state is updated in place by its setter; of rendering only
      what a component shows of its state and the effect of [Index] are
      modelled.
    - The identity provider is outside the program.  Every request made to
      it is appended to a log, and the error it reports is a function of
      that log, so its answers are arbitrary but fixed. *)

From Stdlib Require Import Ascii String ZArith Lia.
From stdpp Require Import gmap strings list.

Local Open Scope string_scope.

(** ** JavaScript built-ins used by the sources *)

Module JS.

(** [s.split(sep)] for a separator of one character. *)
Fixpoint split (sep : ascii) (s : string) : list string :=
  match s with
  | EmptyString => [EmptyString]
  | String c rest =>
      if Ascii.eqb c sep then EmptyString :: split sep rest
      else match split sep rest with
           | piece :: pieces => String c piece :: pieces
           | [] => [String c EmptyString]
           end
  end.

(** [s.charAt(i)]: the empty string out of range. *)
Definition charAt (i : nat) (s : string) : string :=
  match String.get i s with
  | Some c => String c EmptyString
  | None => EmptyString
  end.

(** [s.slice(start)] for a non-negative [start]. *)
Fixpoint slice (start : nat) (s : string) : string :=
  match start, s with
  | O, _ => s
  | S n, String _ rest => slice n rest
  | S _, EmptyString => EmptyString
  end.

Definition mapChars (f : ascii -> ascii) : string -> string :=
  fix go (s : string) : string :=
    match s with
    | EmptyString => EmptyString
    | String c rest => String (f c) (go rest)
    end.

(** The small letters that have a capital among the code units below
    256: a to z and, in Latin-1, 224 to 254 without the division sign
    247.  The capital lies 32 below. *)
Definition upperChar (c : ascii) : ascii :=
  let n := nat_of_ascii c in
  if ((97 <=? n)%nat && (n <=? 122)%nat)
     || ((224 <=? n)%nat && (n <=? 254)%nat && negb (n =? 247)%nat)
  then ascii_of_nat (n - 32) else c.

(** The capital letters: A to Z and, in Latin-1, 192 to 222 without the
    multiplication sign 215.  The small letter lies 32 above. *)
Definition lowerChar (c : ascii) : ascii :=
  let n := nat_of_ascii c in
  if ((65 <=? n)%nat && (n <=? 90)%nat)
     || ((192 <=? n)%nat && (n <=? 222)%nat && negb (n =? 215)%nat)
  then ascii_of_nat (n + 32) else c.

(** [s.toUpperCase()].  The sharp s, 223, becomes two capitals.  The
    capitals of the micro sign, 181, and of the y with diaeresis, 255,
    are code units above 255: these two letters are left as they are, and
    the sources apply [toUpperCase] to the first letter of a provider's
    name only. *)
Fixpoint toUpperCase (s : string) : string :=
  match s with
  | EmptyString => EmptyString
  | String c rest =>
      if (nat_of_ascii c =? 223)%nat then String "S" (String "S" (toUpperCase rest))
      else String (upperChar c) (toUpperCase rest)
  end.

(** [s.toLowerCase()]. *)
Definition toLowerCase : string -> string := mapChars lowerChar.

(** The class [\s] of regular expressions, which is also what [trim]
    strips.  Below 256: tab, line feed, vertical tab, form feed, carriage
    return, space and the no-break space 160. *)
Definition isSpace (c : ascii) : bool :=
  let n := nat_of_ascii c in
  ((9 <=? n)%nat && (n <=? 13)%nat) || (n =? 32)%nat || (n =? 160)%nat.

(** [s.replace(/\s/g, '')]. *)
Fixpoint removeSpaces (s : string) : string :=
  match s with
  | EmptyString => EmptyString
  | String c rest =>
      if isSpace c then removeSpaces rest else String c (removeSpaces rest)
  end.

Fixpoint trimStart (s : string) : string :=
  match s with
  | EmptyString => EmptyString
  | String c rest => if isSpace c then trimStart rest else s
  end.

Fixpoint trimEnd (s : string) : string :=
  match s with
  | EmptyString => EmptyString
  | String c rest =>
      match trimEnd rest with
      | EmptyString => if isSpace c then EmptyString else String c EmptyString
      | kept => String c kept
      end
  end.

(** [s.trim()]. *)
Definition trim (s : string) : string := trimEnd (trimStart s).

(** Truthiness of a possibly absent string: [undefined], [null] and the
    empty string are falsy. *)
Definition truthy (v : option string) : bool :=
  match v with
  | Some (String _ _) => true
  | _ => false
  end.

(** [a || b]. *)
Definition orElse (a b : option string) : option string :=
  if truthy a then a else b.

(** [a || 'literal']: the result is a string. *)
Definition orLit (a : option string) (lit : string) : string :=
  match a with
  | Some (String _ _ as s) => s
  | _ => lit
  end.

(** [pieces[0]] for the array [split] returns, which is never empty. *)
Definition first (pieces : list string) : string :=
  match pieces with
  | piece :: _ => piece
  | [] => EmptyString
  end.

(** [!!v] for a value that is an object or [null]. *)
Definition present {A : Type} (v : option A) : bool :=
  match v with
  | Some _ => true
  | None => false
  end.

(** A thrown value: an [Error] object with its message, or anything
    else. *)
Inductive thrown : Type :=
| ErrorObject (message : string)
| OtherValue.

(** [err instanceof Error ? err.message : fallback]. *)
Definition messageOr (fallback : string) (err : thrown) : string :=
  match err with
  | ErrorObject m => m
  | OtherValue => fallback
  end.

End JS.

(** ** JSON text of a record of two strings *)

Module JSON.

Definition dquote : ascii := "034"%char.
Definition backslash : ascii := "092"%char.

Definition hexDigit (n : nat) : ascii :=
  if (n <? 10)%nat then ascii_of_nat (48 + n) else ascii_of_nat (87 + n).

(** The escape of one character inside a JSON string, as
    [JSON.stringify] writes it: the two-character escapes where they
    exist, [\u00XX] for the other control characters, the character
    itself otherwise. *)
Definition escapeChar (c : ascii) : string :=
  let n := nat_of_ascii c in
  if (n =? 8)%nat then String backslash "b"
  else if (n =? 9)%nat then String backslash "t"
  else if (n =? 10)%nat then String backslash "n"
  else if (n =? 12)%nat then String backslash "f"
  else if (n =? 13)%nat then String backslash "r"
  else if (n =? 34)%nat then String backslash (String dquote EmptyString)
  else if (n =? 92)%nat then String backslash (String backslash EmptyString)
  else if (n <? 32)%nat then
    String backslash
      (String "u" (String "0" (String "0"
        (String (hexDigit (n / 16)) (String (hexDigit (n mod 16)) EmptyString)))))
  else String c EmptyString.

Fixpoint escape (s : string) : string :=
  match s with
  | EmptyString => EmptyString
  | String c rest => escapeChar c ++ escape rest
  end.

(** [JSON.stringify(s)] for a string [s]. *)
Definition quote (s : string) : string :=
  String dquote (escape s ++ String dquote EmptyString).

(** The value of a hexadecimal digit. *)
Definition hexValue (c : ascii) : option nat :=
  let n := nat_of_ascii c in
  if (48 <=? n)%nat && (n <=? 57)%nat then Some (n - 48)
  else if (97 <=? n)%nat && (n <=? 102)%nat then Some (n - 87)
  else if (65 <=? n)%nat && (n <=? 70)%nat then Some (n - 55)
  else None.

(** The character a two-character escape stands for. *)
Definition simpleEscape (c : ascii) : option ascii :=
  let n := nat_of_ascii c in
  if (n =? 98)%nat then Some (ascii_of_nat 8)
  else if (n =? 116)%nat then Some (ascii_of_nat 9)
  else if (n =? 110)%nat then Some (ascii_of_nat 10)
  else if (n =? 102)%nat then Some (ascii_of_nat 12)
  else if (n =? 114)%nat then Some (ascii_of_nat 13)
  else if (n =? 34)%nat then Some dquote
  else if (n =? 92)%nat then Some backslash
  else if (n =? 47)%nat then Some "/"%char
  else None.

Definition prepend (c : ascii) (r : option (string * string))
  : option (string * string) :=
  match r with
  | Some (s, rest) => Some (String c s, rest)
  | None => None
  end.

(** Reading a JSON string after its opening quote, as [JSON.parse] does:
    the string it denotes and the text after the closing quote.  A raw
    control character, an unknown escape and a code unit above 255 are
    refused. *)
Fixpoint unescape (text : string) : option (string * string) :=
  match text with
  | EmptyString => None
  | String c rest =>
      if Ascii.eqb c dquote then Some (EmptyString, rest)
      else if Ascii.eqb c backslash then
        match rest with
        | EmptyString => None
        | String e rest1 =>
            if Ascii.eqb e "u" then
              match rest1 with
              | String h1 (String h2 (String h3 (String h4 rest2))) =>
                  match hexValue h1, hexValue h2, hexValue h3, hexValue h4 with
                  | Some a, Some b, Some c, Some d =>
                      let code := (((a * 16 + b) * 16 + c) * 16 + d)%nat in
                      if (code <? 256)%nat
                      then prepend (ascii_of_nat code) (unescape rest2)
                      else None
                  | _, _, _, _ => None
                  end
              | _ => None
              end
            else
              match simpleEscape e with
              | Some ch => prepend ch (unescape rest1)
              | None => None
              end
        end
      else if (nat_of_ascii c <? 32)%nat then None
      else prepend c (unescape rest)
  end.

(** Removing a prefix from a text, when it is there. *)
Fixpoint stripPrefix (prefix text : string) : option string :=
  match prefix, text with
  | EmptyString, _ => Some text
  | String p prefix', String t text' =>
      if Ascii.eqb p t then stripPrefix prefix' text' else None
  | String _ _, EmptyString => None
  end.

End JSON.

(** ** The part of the identity provider's client the sources use *)

Module Supabase.

Record AuthError := { message : string }.

(** A provider user.  The metadata map is read at three keys, whose
    values are taken to be strings, as the return type of
    [getUserDisplayName] declares. *)
Record User := {
  id : string;
  email : option string;
  user_metadata : option (gmap string string)
}.

Record Session := { access_token : string; user : User }.

(** The type ['google' | 'github']. *)
Inductive OAuthProvider : Type := google | github.

Definition providerName (p : OAuthProvider) : string :=
  match p with
  | google => "google"
  | github => "github"
  end.

(** The requests the session manager sends to [supabase.auth]. *)
Inductive Request : Type :=
| GetSession
| OnAuthStateChange
| Unsubscribe
| SignInWithPassword (email password : string)
| SignUp (email password : string) (data : gmap string string)
| SignInWithOAuth (provider : OAuthProvider) (redirectTo : string)
| SignOut.

End Supabase.

(** ** [src/context/AuthContext.tsx] *)

Module AuthContext.

(** The demo user, for when the provider is not configured. *)
Record DemoUser := { name : string; email : string }.

(** [JSON.stringify(demo)] for a demo user. *)
Definition JSON_stringify (demo : DemoUser) : string :=
  "{" ++ JSON.quote "name" ++ ":" ++ JSON.quote (name demo) ++ ","
      ++ JSON.quote "email" ++ ":" ++ JSON.quote (email demo) ++ "}".

(** The four state slots of [AuthProvider], the browser's local storage,
    and what the provider's client holds for this component: the log of
    the requests it received, whether the session-change callback is
    registered, and how many [getSession] promises are not yet settled. *)
Record World := {
  user : option Supabase.User;
  session : option Supabase.Session;
  isLoading : bool;
  demoUser : option DemoUser;
  localStorage : gmap string string;
  requests : list Supabase.Request;
  subscribed : bool;
  sessionPending : nat
}.

(** The world a freshly created [AuthProvider] starts in. *)
Definition initial (storage : gmap string string) : World :=
  {| user := None; session := None; isLoading := true; demoUser := None;
     localStorage := storage; requests := []; subscribed := false;
     sessionPending := 0 |}.

(** *** A state monad with exceptions *)

Inductive Outcome (A : Type) : Type :=
| Returned (a : A)
| Threw (e : JS.thrown).

Arguments Returned {A} a.
Arguments Threw {A} e.

Definition M (A : Type) : Type := World -> Outcome A * World.

Definition ret {A : Type} (a : A) : M A := fun w => (Returned a, w).

Definition throw {A : Type} (e : JS.thrown) : M A := fun w => (Threw e, w).

Definition bind {A B : Type} (m : M A) (k : A -> M B) : M B :=
  fun w =>
    match m w with
    | (Returned a, w') => k a w'
    | (Threw e, w') => (Threw e, w')
    end.

Notation "x <- m ;; k" := (bind m (fun x => k))
  (at level 100, m at next level, right associativity).
Notation "m ;; k" := (bind m (fun _ => k))
  (at level 100, right associativity).

Definition modify (f : World -> World) : M unit := fun w => (Returned tt, f w).

Definition setUser (v : option Supabase.User) : M unit :=
  modify (fun w =>
    {| user := v; session := session w; isLoading := isLoading w;
       demoUser := demoUser w; localStorage := localStorage w;
       requests := requests w; subscribed := subscribed w;
       sessionPending := sessionPending w |}).

Definition setSession (v : option Supabase.Session) : M unit :=
  modify (fun w =>
    {| user := user w; session := v; isLoading := isLoading w;
       demoUser := demoUser w; localStorage := localStorage w;
       requests := requests w; subscribed := subscribed w;
       sessionPending := sessionPending w |}).

Definition setIsLoading (v : bool) : M unit :=
  modify (fun w =>
    {| user := user w; session := session w; isLoading := v;
       demoUser := demoUser w; localStorage := localStorage w;
       requests := requests w; subscribed := subscribed w;
       sessionPending := sessionPending w |}).

Definition setDemoUser (v : option DemoUser) : M unit :=
  modify (fun w =>
    {| user := user w; session := session w; isLoading := isLoading w;
       demoUser := v; localStorage := localStorage w;
       requests := requests w; subscribed := subscribed w;
       sessionPending := sessionPending w |}).

Definition withStorage (f : gmap string string -> gmap string string) : M unit :=
  modify (fun w =>
    {| user := user w; session := session w; isLoading := isLoading w;
       demoUser := demoUser w; localStorage := f (localStorage w);
       requests := requests w; subscribed := subscribed w;
       sessionPending := sessionPending w |}).

Definition localStorage_getItem (key : string) : M (option string) :=
  fun w => (Returned (localStorage w !! key), w).

Definition localStorage_setItem (key value : string) : M unit :=
  withStorage (fun m => <[key := value]> m).

Definition localStorage_removeItem (key : string) : M unit :=
  withStorage (fun m => delete key m).

(** Record a request in the provider's log. *)
Definition send (r : Supabase.Request) : M unit :=
  modify (fun w =>
    {| user := user w; session := session w; isLoading := isLoading w;
       demoUser := demoUser w; localStorage := localStorage w;
       requests := requests w ++ [r]; subscribed := subscribed w;
       sessionPending := sessionPending w |}).

Definition setSubscribed (v : bool) : M unit :=
  modify (fun w =>
    {| user := user w; session := session w; isLoading := isLoading w;
       demoUser := demoUser w; localStorage := localStorage w;
       requests := requests w; subscribed := v;
       sessionPending := sessionPending w |}).

Definition setSessionPending (f : nat -> nat) : M unit :=
  modify (fun w =>
    {| user := user w; session := session w; isLoading := isLoading w;
       demoUser := demoUser w; localStorage := localStorage w;
       requests := requests w; subscribed := subscribed w;
       sessionPending := f (sessionPending w) |}).

(** [throw error] for the provider's error object. *)
Definition throwError {A : Type} (error : Supabase.AuthError) : M A :=
  throw (JS.ErrorObject (Supabase.message error)).

Section Configuration.

(** [isSupabaseConfigured] of [lib/supabase]: whether the two connection
    settings are present. *)
Variable isSupabaseConfigured : bool.

(** [window.location.origin]. *)
Variable origin : string.

(** The provider: the [error] field of its answer to the last request of
    a log. *)
Variable supabase : list Supabase.Request -> option Supabase.AuthError.

(** [JSON.parse] at the type [DemoUser | null] of the state slot it
    fills: it throws, or yields [null] or a record. *)
Variable JSON_parse : string -> Outcome (option DemoUser).

(** [await supabase.auth.<request>], destructured to its [error]. *)
Definition await (r : Supabase.Request) : M (option Supabase.AuthError) :=
  fun w => (Returned (supabase (requests w ++ [r])), snd (send r w)).

(** The body of the effect that runs once when the component mounts. *)
Definition mount : M unit :=
  if negb isSupabaseConfigured then
    stored <- localStorage_getItem "demo_user" ;;
    match stored with
    | Some (String _ _ as text) =>
        parsed <- (fun w => (JSON_parse text, w)) ;;
        setDemoUser parsed
    | _ => ret tt
    end ;;
    setIsLoading false
  else
    send Supabase.GetSession ;;
    setSessionPending S ;;
    send Supabase.OnAuthStateChange ;;
    setSubscribed true.

(** The cleanup the effect returns, which exists in configured mode
    only. *)
Definition unmount : M unit :=
  if negb isSupabaseConfigured then ret tt
  else send Supabase.Unsubscribe ;; setSubscribed false.

(** The [then] callback of [getSession], run when a pending promise
    resolves. *)
Definition sessionResolved (s : option Supabase.Session) : M unit :=
  fun w =>
    match sessionPending w with
    | O => (Returned tt, w)
    | S _ =>
        (setSessionPending pred ;;
         setSession s ;;
         setUser (Supabase.user <$> s) ;;
         setIsLoading false) w
    end.

(** The [catch] callback of [getSession]. *)
Definition sessionRejected : M unit :=
  fun w =>
    match sessionPending w with
    | O => (Returned tt, w)
    | S _ => (setSessionPending pred ;; setIsLoading false) w
    end.

(** The callback given to [onAuthStateChange], run while it is
    registered. *)
Definition authStateChange (s : option Supabase.Session) : M unit :=
  fun w =>
    if subscribed w then
      (setSession s ;; setUser (Supabase.user <$> s) ;; setIsLoading false) w
    else (Returned tt, w).

Definition login (email password : string) : M unit :=
  if negb isSupabaseConfigured then
    let demo := {| name := JS.first (JS.split "@" email); email := email |} in
    setDemoUser (Some demo) ;;
    localStorage_setItem "demo_user" (JSON_stringify demo) ;;
    ret tt
  else
    error <- await (Supabase.SignInWithPassword email password) ;;
    match error with
    | Some e => throwError e
    | None => ret tt
    end.

Definition register (name email password : string) : M unit :=
  if negb isSupabaseConfigured then
    let demo := {| name := name; email := email |} in
    setDemoUser (Some demo) ;;
    localStorage_setItem "demo_user" (JSON_stringify demo) ;;
    ret tt
  else
    error <- await (Supabase.SignUp email password
                      (<["full_name" := name]> (<["name" := name]> ∅))) ;;
    match error with
    | Some e => throwError e
    | None => ret tt
    end.

Definition loginWithOAuth (provider : Supabase.OAuthProvider) : M unit :=
  let provider_ := Supabase.providerName provider in
  if negb isSupabaseConfigured then
    let demo :=
      {| name := (JS.toUpperCase (JS.charAt 0 provider_)
                    ++ JS.slice 1 provider_) ++ " User";
         email := "demo@" ++ provider_ ++ ".com" |} in
    setDemoUser (Some demo) ;;
    localStorage_setItem "demo_user" (JSON_stringify demo) ;;
    ret tt
  else
    error <- await (Supabase.SignInWithOAuth provider origin) ;;
    match error with
    | Some e => throwError e
    | None => ret tt
    end.

Definition logout : M unit :=
  if negb isSupabaseConfigured then
    setDemoUser None ;;
    localStorage_removeItem "demo_user" ;;
    ret tt
  else
    error <- await Supabase.SignOut ;;
    match error with
    | Some e => throwError e
    | None => ret tt
    end.

Definition demoLogin (name : string) : M unit :=
  let demo :=
    {| name := name;
       email := JS.removeSpaces (JS.toLowerCase name) ++ "@demo.com" |} in
  setDemoUser (Some demo) ;;
  localStorage_setItem "demo_user" (JSON_stringify demo).

End Configuration.

(** The helper that gets the user's display name. *)
Definition getUserDisplayName (w : World) : string :=
  match demoUser w with
  | Some demo => name demo
  | None =>
      match user w with
      | None => ""
      | Some u =>
          let metadata (key : string) : option string :=
            Supabase.user_metadata u ≫= (fun m : gmap string string => m !! key) in
          JS.orLit
            (JS.orElse
               (JS.orElse
                  (JS.orElse (metadata "full_name") (metadata "name"))
                  (metadata "preferred_username"))
               ((fun e => JS.first (JS.split "@" e)) <$> Supabase.email u))
            "User"
      end
  end.

(** [isLoggedIn: !!user || !!demoUser]. *)
Definition isLoggedIn (w : World) : bool :=
  JS.present (user w) || JS.present (demoUser w).

(** *** The operations as events

    What can happen to a mounted [AuthProvider]: the effect and its
    cleanup, the two callbacks of [getSession], a session-change
    notification, and a call of one of the five exported operations.  An
    awaited provider request and the resumption that follows it are one
    step: after the request no operation writes to the state, so
    notifications that arrive in between commute with it. *)

Inductive Event : Type :=
| Mount
| Unmount
| SessionResolved (s : option Supabase.Session)
| SessionRejected
| AuthStateChange (s : option Supabase.Session)
| Login (email password : string)
| Register (name email password : string)
| LoginWithOAuth (provider : Supabase.OAuthProvider)
| Logout
| DemoLogin (name : string).

Section Run.

Variable isSupabaseConfigured : bool.
Variable origin : string.
Variable supabase : list Supabase.Request -> option Supabase.AuthError.
Variable JSON_parse : string -> Outcome (option DemoUser).

Definition handle (e : Event) : M unit :=
  match e with
  | Mount => mount isSupabaseConfigured JSON_parse
  | Unmount => unmount isSupabaseConfigured
  | SessionResolved s => sessionResolved s
  | SessionRejected => sessionRejected
  | AuthStateChange s => authStateChange s
  | Login email password => login isSupabaseConfigured supabase email password
  | Register name email password =>
      register isSupabaseConfigured supabase name email password
  | LoginWithOAuth provider =>
      loginWithOAuth isSupabaseConfigured origin supabase provider
  | Logout => logout isSupabaseConfigured supabase
  | DemoLogin name => demoLogin name
  end.

(** The world after an event, whether its handler returned or threw. *)
Definition step (w : World) (e : Event) : World := snd (handle e w).

Definition run (es : list Event) (w : World) : World := foldl step w es.

End Run.

End AuthContext.

(** ** The register handler of [src/components/AuthModal.tsx] *)

Module AuthModal.

Record RegisterForm := {
  name : string;
  email : string;
  password : string;
  confirmPassword : string
}.

(** What the handler does to its surroundings: a toast and the two
    callbacks of the modal's props. *)
Inductive Effect : Type :=
| Toast (title description : string)
| OnAuthSuccess
| OnClose.

(** The state slots of the modal the handler touches, and the effects
    it has emitted so far. *)
Record State := {
  error : option string;
  isLoading : bool;
  registerForm : RegisterForm;
  effects : list Effect
}.

Definition setError (v : option string) (m : State) : State :=
  {| error := v; isLoading := isLoading m; registerForm := registerForm m;
     effects := effects m |}.

Definition setIsLoading (v : bool) (m : State) : State :=
  {| error := error m; isLoading := v; registerForm := registerForm m;
     effects := effects m |}.

Definition emit (es : list Effect) (m : State) : State :=
  {| error := error m; isLoading := isLoading m;
     registerForm := registerForm m; effects := effects m ++ es |}.

Section Configuration.

Variable isSupabaseConfigured : bool.
Variable supabase : list Supabase.Request -> option Supabase.AuthError.

Definition handleRegister (m : State) (w : AuthContext.World)
  : State * AuthContext.World :=
  let form := registerForm m in
  let m := setError None m in
  if negb (String.eqb (password form) (confirmPassword form)) then
    (setError (Some "Passwords don't match!") m, w)
  else
    let m := setIsLoading true m in
    match AuthContext.register isSupabaseConfigured supabase
            (name form) (email form) (password form) w with
    | (AuthContext.Returned _, w') =>
        let m :=
          emit [Toast "Account created!" "Welcome to AgenticCLI.";
                OnAuthSuccess; OnClose] m in
        (setIsLoading false m, w')
    | (AuthContext.Threw err, w') =>
        let m := setError (Some (JS.messageOr "Registration failed" err)) m in
        (setIsLoading false m, w')
    end.

End Configuration.

End AuthModal.

(** ** The numbers [Math.random] returns

    A double in the interval from 0 to 1 is a multiple of the smallest
    positive double, 2^-1074, so it is kept as its numerator [n] over
    2^1074.  Such an [n] is a double when it has at most 53 significant
    bits. *)

Module Double.

Local Open Scope Z_scope.

Definition scale : Z := 2 ^ 1074.

(** The weight of the last of the 53 significant bits of [x]. *)
Definition ulp (x : Z) : Z := 2 ^ Z.max 0 (Z.log2 x - 52).

(** What [Math.random()] can return: a double that is at least 0 and
    less than 1. *)
Definition isRandom (n : Z) : bool :=
  (0 <=? n) && (n <? scale) && (n mod ulp n =? 0).

(** Rounding to the nearest double, ties to the even significand. *)
Definition round (x : Z) : Z :=
  let u := ulp x in
  let q := x / u in
  let r := x mod u in
  if 2 * r <? u then q * u
  else if u <? 2 * r then (q + 1) * u
  else if Z.even q then q * u
  else (q + 1) * u.

(** The double of an integer [n]. *)
Definition ofInt (n : Z) : Z := n * scale.

(** [d * k] for a double [d] and a small non-negative integer [k]. *)
Definition times (d k : Z) : Z := round (d * k).

(** [a + b] for two doubles. *)
Definition plus (a b : Z) : Z := round (a + b).

(** [Math.floor(x)] as an integer. *)
Definition floor (x : Z) : Z := x / scale.

End Double.

(** ** [CLIPanel] *)

Module CLIPanel.

Inductive MessageType : Type := user | agent.

Record Message := { type : MessageType; content : string }.

Definition initialMessages : list Message :=
  [ {| type := agent;
       content := "Welcome to Agentic CLI. How can I assist you today?" |} ].

Definition sampleResponses : list string :=
  [ "Analyzing your request... I'll help you with that.";
    "Running `npm install` and setting up your project structure...";
    "I've identified the issue. Let me fix that for you.";
    "Creating a new React component with TypeScript types...";
    "Optimizing your code for better performance..." ].

(** The three state slots of the panel, and the timeouts that are
    scheduled and have not fired, each kept as its delay in
    milliseconds. *)
Record State := {
  messages : list Message;
  input : string;
  isTyping : bool;
  timeouts : list Z
}.

Definition initial : State :=
  {| messages := initialMessages; input := ""; isTyping := false;
     timeouts := [] |}.

(** The [onChange] handler of the input field. *)
Definition setInput (text : string) (s : State) : State :=
  {| messages := messages s; input := text; isTyping := isTyping s;
     timeouts := timeouts s |}.

(** [1000 + Math.random() * 1000] where [Math.random()] returns [d]. *)
Definition delay (d : Z) : Z :=
  Double.plus (Double.ofInt 1000) (Double.times d 1000).

(** [handleSubmit]; [d] is what [Math.random()] returns for the delay. *)
Definition handleSubmit (d : Z) (s : State) : State :=
  if negb (JS.truthy (Some (JS.trim (input s)))) || isTyping s then s
  else
    {| messages := messages s ++ [ {| type := user; content := input s |} ];
       input := "";
       isTyping := true;
       timeouts := timeouts s ++ [delay d] |}.

(** [sampleResponses[Math.floor(Math.random() * sampleResponses.length)]]
    where [Math.random()] returns [d]; [None] is [undefined]. *)
Definition randomResponse (d : Z) : option string :=
  sampleResponses
    !! Z.to_nat (Double.floor (Double.times d (Z.of_nat (length sampleResponses)))).

(** The callback of a timeout, run when the oldest scheduled one fires;
    [d] is what [Math.random()] returns for the choice. *)
Definition timeout (d : Z) (s : State) : State :=
  match timeouts s with
  | [] => s
  | _ :: later =>
      {| messages :=
           messages s
             ++ [ {| type := agent; content := default "" (randomResponse d) |} ];
         input := input s;
         isTyping := false;
         timeouts := later |}
  end.

Inductive Event : Type :=
| Type_ (text : string)
| Submit (d : Z)
| Timeout (d : Z).

Definition step (s : State) (e : Event) : State :=
  match e with
  | Type_ text => setInput text s
  | Submit d => handleSubmit d s
  | Timeout d => timeout d s
  end.

Definition run (es : list Event) (s : State) : State := foldl step s es.

End CLIPanel.

(** ** The specification's own words, for comparison with the code *)

Module Spec.

(** The local-part of an email: the substring before the first [@]. *)
Fixpoint localPart (email : string) : string :=
  match email with
  | EmptyString => EmptyString
  | String c rest =>
      if Ascii.eqb c "@" then EmptyString else String c (localPart rest)
  end.

(** The first candidate that is present and not empty. *)
Fixpoint firstUsable (candidates : list (option string)) : option string :=
  match candidates with
  | [] => None
  | c :: rest => if JS.truthy c then c else firstUsable rest
  end.

(** A metadata field of a provider user. *)
Definition metadata (u : Supabase.User) (key : string) : option string :=
  Supabase.user_metadata u ≫= (fun m : gmap string string => m !! key).

(** What a provider user offers as a display name, in the order of
    precedence: metadata full-name, metadata name, metadata
    preferred-username, local-part of the email.  No user offers
    nothing. *)
Definition candidates (u : option Supabase.User) : list (option string) :=
  match u with
  | Some u =>
      [ metadata u "full_name"; metadata u "name";
        metadata u "preferred_username"; localPart <$> Supabase.email u ]
  | None => []
  end.

(** Display name resolution as section 3 words it: the demo identity's
    name, else the candidates in order, else the literal fallback. *)
Definition displayName (w : AuthContext.World) : string :=
  match AuthContext.demoUser w with
  | Some demo => AuthContext.name demo
  | None => default "User" (firstUsable (candidates (AuthContext.user w)))
  end.

(** The same with the case of no identity at all set apart. *)
Definition displayNameAmended (w : AuthContext.World) : string :=
  match AuthContext.demoUser w, AuthContext.user w with
  | Some demo, _ => AuthContext.name demo
  | None, None => ""
  | None, Some u => default "User" (firstUsable (candidates (Some u)))
  end.

(** A text held by an identity of the world: the demo name or one of the
    provider user's candidates. *)
Definition holds (w : AuthContext.World) (text : string) : Prop :=
  AuthContext.name <$> AuthContext.demoUser w = Some text
  \/ Some text ∈ candidates (AuthContext.user w).

Definition noUsableMetadata (u : Supabase.User) : Prop :=
  JS.truthy (metadata u "full_name") = false
  /\ JS.truthy (metadata u "name") = false
  /\ JS.truthy (metadata u "preferred_username") = false.

(** When the fallback may be reached as C10 states it: a
    provider user exists, it has no usable metadata field and no
    email. *)
Definition fallbackOnlyWhen (w : AuthContext.World) : Prop :=
  exists u : Supabase.User,
    AuthContext.user w = Some u
    /\ noUsableMetadata u
    /\ Supabase.email u = None.

(** The same with an email whose local-part is empty counted as no
    usable email. *)
Definition fallbackOnlyWhenAmended (w : AuthContext.World) : Prop :=
  exists u : Supabase.User,
    AuthContext.user w = Some u
    /\ noUsableMetadata u
    /\ JS.truthy (localPart <$> Supabase.email u) = false.

(** The demo identity of a simulated OAuth login, as section 4.2 words
    it: named after the provider, with a synthetic email. *)
Definition oauthIdentity (provider : Supabase.OAuthProvider)
  : AuthContext.DemoUser :=
  match provider with
  | Supabase.google =>
      {| AuthContext.name := "Google User";
         AuthContext.email := "demo@google.com" |}
  | Supabase.github =>
      {| AuthContext.name := "Github User";
         AuthContext.email := "demo@github.com" |}
  end.

(** The four calls of the operation facade. *)
Definition isFacadeCall (e : AuthContext.Event) : bool :=
  match e with
  | AuthContext.Login _ _ | AuthContext.Register _ _ _
  | AuthContext.LoginWithOAuth _ | AuthContext.Logout => true
  | _ => false
  end.

(** The demo identity a facade call leaves behind in demo mode: the one
    it synthesizes, or none after a logout. *)
Definition synthesized (e : AuthContext.Event) : option AuthContext.DemoUser :=
  match e with
  | AuthContext.Login email _ =>
      Some {| AuthContext.name := localPart email;
              AuthContext.email := email |}
  | AuthContext.Register name email _ =>
      Some {| AuthContext.name := name; AuthContext.email := email |}
  | AuthContext.LoginWithOAuth provider => Some (oauthIdentity provider)
  | _ => None
  end.

(** The invariant of section 3: at most one of the two identities is
    non-null. *)
Definition atMostOneIdentity (w : AuthContext.World) : Prop :=
  AuthContext.user w = None \/ AuthContext.demoUser w = None.

(** What holds of the provider's side of the world throughout demo
    mode: no provider identity, no subscription, no pending request. *)
Definition providerIdle (w : AuthContext.World) : Prop :=
  AuthContext.user w = None
  /\ AuthContext.session w = None
  /\ AuthContext.subscribed w = false
  /\ AuthContext.sessionPending w = 0.

Definition isDemoLogin (e : AuthContext.Event) : bool :=
  match e with
  | AuthContext.DemoLogin _ => true
  | _ => false
  end.

(** Reading back the text [JSON_stringify] writes for a demo user. *)
Definition readRecord (text : string) : option AuthContext.DemoUser :=
  afterName ← JSON.stripPrefix ("{" ++ JSON.quote "name" ++ ":") text;
  afterQuote ← JSON.stripPrefix (String JSON.dquote "") afterName;
  '(name, afterValue) ← JSON.unescape afterQuote;
  afterEmail ← JSON.stripPrefix ("," ++ JSON.quote "email" ++ ":") afterValue;
  afterQuote' ← JSON.stripPrefix (String JSON.dquote "") afterEmail;
  '(email, closing) ← JSON.unescape afterQuote';
  if String.eqb closing "}"
  then Some {| AuthContext.name := name; AuthContext.email := email |}
  else None.

(** A storage in which the single key demo_user holds the JSON text of
    an identity, or is absent when there is none. *)
Definition stored (identity : option AuthContext.DemoUser)
  (storage : gmap string string) : gmap string string :=
  match identity with
  | Some demo => <["demo_user" := AuthContext.JSON_stringify demo]> storage
  | None => delete "demo_user" storage
  end.

(** The number of messages of a type in a transcript. *)
Fixpoint count (t : CLIPanel.MessageType) (ms : list CLIPanel.Message) : nat :=
  match ms with
  | [] => 0
  | m :: rest =>
      match CLIPanel.type m, t with
      | CLIPanel.user, CLIPanel.user | CLIPanel.agent, CLIPanel.agent =>
          S (count t rest)
      | _, _ => count t rest
      end
  end.

(** What holds of the panel between events: a timeout is scheduled
    exactly while a response is pending, and every user message but a
    pending one has been answered by one agent message; the greeting is
    the one agent message more. *)
Definition panelInvariant (s : CLIPanel.State) : Prop :=
  length (CLIPanel.timeouts s) = (if CLIPanel.isTyping s then 1 else 0)
  /\ count CLIPanel.agent (CLIPanel.messages s) + length (CLIPanel.timeouts s)
     = 1 + count CLIPanel.user (CLIPanel.messages s).

(** The code units that are white space: tab, line feed, vertical tab,
    form feed, carriage return, space and no-break space. *)
Definition whiteSpace : list nat := [9; 10; 11; 12; 13; 32; 160].

Definition isWhiteSpace (c : ascii) : bool :=
  existsb (Nat.eqb (nat_of_ascii c)) whiteSpace.






End Spec.

(** ** Concrete providers, users and worlds *)

Module Examples.

(** A provider that accepts every request. *)
Definition accepting : list Supabase.Request -> option Supabase.AuthError :=
  fun _ => None.

(** A provider that rejects every request. *)
Definition rejecting : list Supabase.Request -> option Supabase.AuthError :=
  fun _ => Some {| Supabase.message := "Invalid login credentials" |}.

(** A parser that rejects every text. *)
Definition unparsable : string -> AuthContext.Outcome (option AuthContext.DemoUser) :=
  fun _ => AuthContext.Threw (JS.ErrorObject "Unexpected token").

Definition origin : string := "http://localhost:5173".

Definition userWith (email : option string)
  (metadata : option (gmap string string)) : Supabase.User :=
  {| Supabase.id := "7f3c"; Supabase.email := email;
     Supabase.user_metadata := metadata |}.

Definition sessionOf (u : Supabase.User) : Supabase.Session :=
  {| Supabase.access_token := "token"; Supabase.user := u |}.

(** Configured mode: the component is mounted over a storage, the
    provider announces a session of [u], and [events] follow. *)
Definition signedInThen (u : Supabase.User) (storage : gmap string string)
  (events : list AuthContext.Event) : AuthContext.World :=
  AuthContext.run true origin accepting unparsable
    (AuthContext.Mount :: AuthContext.AuthStateChange (Some (sessionOf u))
       :: events)
    (AuthContext.initial storage).

Definition signedIn (u : Supabase.User) (storage : gmap string string)
  : AuthContext.World :=
  signedInThen u storage [].

(** Demo mode: the component is mounted over an empty storage and
    [events] follow. *)
Definition demo (events : list AuthContext.Event) : AuthContext.World :=
  AuthContext.run false origin accepting unparsable
    (AuthContext.Mount :: events) (AuthContext.initial ∅).

(** A parser that reads the records [JSON_stringify] writes and yields
    [null] for every other text. *)
Definition recordParser : string -> AuthContext.Outcome (option AuthContext.DemoUser) :=
  fun text => AuthContext.Returned (Spec.readRecord text).

(** A register form whose confirmation differs from its password. *)
Definition mismatched : AuthModal.State :=
  {| AuthModal.error := None; AuthModal.isLoading := false;
     AuthModal.registerForm :=
       {| AuthModal.name := "Grace"; AuthModal.email := "grace@x.com";
          AuthModal.password := "abc"; AuthModal.confirmPassword := "xyz" |};
     AuthModal.effects := [] |}.

(** The JSON text of a demo identity named Ada. *)
Definition adaRecord : string :=
  AuthContext.JSON_stringify
    {| AuthContext.name := "Ada"; AuthContext.email := "ada@demo.com" |}.

End Examples.

(** ** The other handlers of [src/components/AuthModal.tsx] *)

Module AuthForms.

Record Credentials := { email : string; password : string }.

(** The modal with its two sign-in forms; [modal] holds the slots the
    register handler already uses. *)
Record State := {
  modal : AuthModal.State;
  loginForm : Credentials;
  signinForm : Credentials
}.

Definition onModal (f : AuthModal.State -> AuthModal.State) (m : State)
  : State :=
  {| modal := f (modal m); loginForm := loginForm m;
     signinForm := signinForm m |}.

(** The modal as it is first rendered. *)
Definition initial : State :=
  {| modal :=
       {| AuthModal.error := None; AuthModal.isLoading := false;
          AuthModal.registerForm :=
            {| AuthModal.name := ""; AuthModal.email := "";
               AuthModal.password := ""; AuthModal.confirmPassword := "" |};
          AuthModal.effects := [] |};
     loginForm := {| email := ""; password := "" |};
     signinForm := {| email := ""; password := "" |} |}.

Section Configuration.

Variable isSupabaseConfigured : bool.
Variable origin : string.
Variable supabase : list Supabase.Request -> option Supabase.AuthError.

Definition handleLogin (m : State) (w : AuthContext.World)
  : State * AuthContext.World :=
  let form := loginForm m in
  let m := onModal (AuthModal.setError None) m in
  let m := onModal (AuthModal.setIsLoading true) m in
  match AuthContext.login isSupabaseConfigured supabase
          (email form) (password form) w with
  | (AuthContext.Returned _, w') =>
      let m :=
        onModal (AuthModal.emit
                   [AuthModal.Toast "Welcome back!" "Successfully logged in.";
                    AuthModal.OnAuthSuccess; AuthModal.OnClose]) m in
      (onModal (AuthModal.setIsLoading false) m, w')
  | (AuthContext.Threw err, w') =>
      let m :=
        onModal (AuthModal.setError (Some (JS.messageOr "Login failed" err)))
          m in
      (onModal (AuthModal.setIsLoading false) m, w')
  end.

Definition handleSignIn (m : State) (w : AuthContext.World)
  : State * AuthContext.World :=
  let form := signinForm m in
  let m := onModal (AuthModal.setError None) m in
  let m := onModal (AuthModal.setIsLoading true) m in
  match AuthContext.login isSupabaseConfigured supabase
          (email form) (password form) w with
  | (AuthContext.Returned _, w') =>
      let m :=
        onModal (AuthModal.emit
                   [AuthModal.Toast "Welcome!" "Successfully signed in.";
                    AuthModal.OnAuthSuccess; AuthModal.OnClose]) m in
      (onModal (AuthModal.setIsLoading false) m, w')
  | (AuthContext.Threw err, w') =>
      let m :=
        onModal (AuthModal.setError (Some (JS.messageOr "Sign in failed" err)))
          m in
      (onModal (AuthModal.setIsLoading false) m, w')
  end.

Definition handleOAuthLogin (provider : Supabase.OAuthProvider)
  (m : State) (w : AuthContext.World) : State * AuthContext.World :=
  let m := onModal (AuthModal.setError None) m in
  let m := onModal (AuthModal.setIsLoading true) m in
  match AuthContext.loginWithOAuth isSupabaseConfigured origin supabase
          provider w with
  | (AuthContext.Returned _, w') =>
      let m :=
        onModal (AuthModal.emit
                   [AuthModal.Toast "Welcome!"
                      ("Signed in with " ++ Supabase.providerName provider
                         ++ ".");
                    AuthModal.OnAuthSuccess; AuthModal.OnClose]) m in
      (onModal (AuthModal.setIsLoading false) m, w')
  | (AuthContext.Threw err, w') =>
      let m :=
        onModal (AuthModal.setError
                   (Some (JS.messageOr "OAuth login failed" err))) m in
      (onModal (AuthModal.setIsLoading false) m, w')
  end.

(** [handleRegister] on the modal with its forms. *)
Definition handleRegister (m : State) (w : AuthContext.World)
  : State * AuthContext.World :=
  let r := AuthModal.handleRegister isSupabaseConfigured supabase (modal m) w in
  (onModal (fun _ => fst r) m, snd r).

End Configuration.

End AuthForms.

(** ** [src/components/Navbar.tsx] *)

Module Navbar.

Record Props := { isLoggedIn : bool; userName : option string }.

(** What the bar shows beside the logo: the welcome text with the user
    name, when it is rendered, and the variant and the label of the
    button. *)
Record View := {
  welcome : option string;
  variant : string;
  label : string
}.

Definition render (props : Props) : View :=
  {| welcome :=
       if isLoggedIn props && JS.truthy (userName props)
       then userName props else None;
     variant := if isLoggedIn props then "secondary" else "default";
     label := if isLoggedIn props then "Logout" else "Login" |}.

End Navbar.

(** ** [src/pages/Index.tsx] *)

Module Index.

(** The two state slots of the page, and the number of scrolls to the
    panel it has scheduled. *)
Record State := {
  showCLI : bool;
  showAuthModal : bool;
  scrolls : nat
}.

Definition initial : State :=
  {| showCLI := false; showAuthModal := false; scrolls := 0 |}.

Definition setShowCLI (v : bool) (s : State) : State :=
  {| showCLI := v; showAuthModal := showAuthModal s; scrolls := scrolls s |}.

Definition setShowAuthModal (v : bool) (s : State) : State :=
  {| showCLI := showCLI s; showAuthModal := v; scrolls := scrolls s |}.

(** [setTimeout] of the smooth scroll to the panel. *)
Definition scheduleScroll (s : State) : State :=
  {| showCLI := showCLI s; showAuthModal := showAuthModal s;
     scrolls := S (scrolls s) |}.

(** The effect that shows the panel when the user logs in; it runs when
    [isLoggedIn] changes. *)
Definition effect (isLoggedIn : bool) (s : State) : State :=
  if isLoggedIn then setShowCLI true s else s.

Section Configuration.

Variable isSupabaseConfigured : bool.
Variable supabase : list Supabase.Request -> option Supabase.AuthError.

Definition handleLoginClick (s : State) (w : AuthContext.World)
  : AuthContext.Outcome unit * (State * AuthContext.World) :=
  if AuthContext.isLoggedIn w then
    match AuthContext.logout isSupabaseConfigured supabase w with
    | (AuthContext.Returned _, w') =>
        (AuthContext.Returned tt, (setShowCLI false s, w'))
    | (AuthContext.Threw err, w') => (AuthContext.Threw err, (s, w'))
    end
  else (AuthContext.Returned tt, (setShowAuthModal true s, w)).

End Configuration.

Definition handleAuthSuccess (s : State) : State :=
  scheduleScroll (setShowAuthModal false (setShowCLI true s)).

Definition handleCtaClick (isLoggedIn : bool) (s : State) : State :=
  if negb isLoggedIn then setShowAuthModal true s
  else scheduleScroll (setShowCLI true s).

(** The [onClose] the page gives to the modal. *)
Definition onClose (s : State) : State := setShowAuthModal false s.

End Index.

(** ** The page with its modal and its session manager

    [Index] renders the navbar with [handleLoginClick], the hero section
    with [handleCtaClick], and the modal with [handleAuthSuccess] and
    the closing callback; all of them read the session manager.  A step
    is one event with the render that follows it: the effect of [Index]
    runs when the event changed [isLoggedIn]. *)

Module Page.

Record State := {
  index : Index.State;
  forms : AuthForms.State;
  auth : AuthContext.World
}.

Inductive Event : Type :=
| ClickLogin
| ClickCta
| CloseModal
| SetLoginForm (form : AuthForms.Credentials)
| SetSigninForm (form : AuthForms.Credentials)
| SetRegisterForm (form : AuthModal.RegisterForm)
| SubmitLogin
| SubmitSignIn
| SubmitRegister
| ClickOAuth (provider : Supabase.OAuthProvider)
| SessionResolved (s : option Supabase.Session)
| SessionRejected
| AuthStateChange (s : option Supabase.Session).

(** The callbacks of the modal, as the page binds them. *)
Definition deliver (i : Index.State) (e : AuthModal.Effect) : Index.State :=
  match e with
  | AuthModal.Toast _ _ => i
  | AuthModal.OnAuthSuccess => Index.handleAuthSuccess i
  | AuthModal.OnClose => Index.onClose i
  end.

Section Configuration.

Variable isSupabaseConfigured : bool.
Variable origin : string.
Variable supabase : list Supabase.Request -> option Supabase.AuthError.
Variable JSON_parse : string -> AuthContext.Outcome (option AuthContext.DemoUser).

(** A handler of the modal ran: the page receives the effects the
    handler added. *)
Definition submitted (p : State) (r : AuthForms.State * AuthContext.World)
  : State :=
  let added :=
    drop (length (AuthModal.effects (AuthForms.modal (forms p))))
      (AuthModal.effects (AuthForms.modal (fst r))) in
  {| index := foldl deliver (index p) added; forms := fst r; auth := snd r |}.

Definition onAuth (p : State) (e : AuthContext.Event) : State :=
  {| index := index p; forms := forms p;
     auth := AuthContext.step isSupabaseConfigured origin supabase JSON_parse
               (auth p) e |}.

Definition handle (p : State) (e : Event) : State :=
  match e with
  | ClickLogin =>
      let r :=
        snd (Index.handleLoginClick isSupabaseConfigured supabase
               (index p) (auth p)) in
      {| index := fst r; forms := forms p; auth := snd r |}
  | ClickCta =>
      {| index :=
           Index.handleCtaClick (AuthContext.isLoggedIn (auth p)) (index p);
         forms := forms p; auth := auth p |}
  | CloseModal =>
      {| index := Index.onClose (index p); forms := forms p; auth := auth p |}
  | SetLoginForm form =>
      {| index := index p;
         forms :=
           {| AuthForms.modal := AuthForms.modal (forms p);
              AuthForms.loginForm := form;
              AuthForms.signinForm := AuthForms.signinForm (forms p) |};
         auth := auth p |}
  | SetSigninForm form =>
      {| index := index p;
         forms :=
           {| AuthForms.modal := AuthForms.modal (forms p);
              AuthForms.loginForm := AuthForms.loginForm (forms p);
              AuthForms.signinForm := form |};
         auth := auth p |}
  | SetRegisterForm form =>
      {| index := index p;
         forms :=
           AuthForms.onModal
             (fun m =>
                {| AuthModal.error := AuthModal.error m;
                   AuthModal.isLoading := AuthModal.isLoading m;
                   AuthModal.registerForm := form;
                   AuthModal.effects := AuthModal.effects m |})
             (forms p);
         auth := auth p |}
  | SubmitLogin =>
      submitted p
        (AuthForms.handleLogin isSupabaseConfigured supabase (forms p) (auth p))
  | SubmitSignIn =>
      submitted p
        (AuthForms.handleSignIn isSupabaseConfigured supabase (forms p) (auth p))
  | SubmitRegister =>
      submitted p
        (AuthForms.handleRegister isSupabaseConfigured supabase (forms p)
           (auth p))
  | ClickOAuth provider =>
      submitted p
        (AuthForms.handleOAuthLogin isSupabaseConfigured origin supabase
           provider (forms p) (auth p))
  | SessionResolved s => onAuth p (AuthContext.SessionResolved s)
  | SessionRejected => onAuth p AuthContext.SessionRejected
  | AuthStateChange s => onAuth p (AuthContext.AuthStateChange s)
  end.

(** The render after an event: the effect runs if [isLoggedIn] is not
    what it was. *)
Definition rerender (before : bool) (p : State) : State :=
  let now := AuthContext.isLoggedIn (auth p) in
  if Bool.eqb before now then p
  else {| index := Index.effect now (index p); forms := forms p;
          auth := auth p |}.

Definition step (p : State) (e : Event) : State :=
  rerender (AuthContext.isLoggedIn (auth p)) (handle p e).

Definition run (es : list Event) (p : State) : State := foldl step p es.

(** The page once it is mounted over a storage: the session manager has
    run its effect, and the page has rendered again. *)
Definition start (storage : gmap string string) : State :=
  rerender false
    {| index := Index.initial; forms := AuthForms.initial;
       auth := AuthContext.step isSupabaseConfigured origin supabase
                 JSON_parse (AuthContext.initial storage) AuthContext.Mount |}.

End Configuration.

(** The navbar as the page renders it. *)
Definition navbar (p : State) : Navbar.View :=
  Navbar.render
    {| Navbar.isLoggedIn := AuthContext.isLoggedIn (auth p);
       Navbar.userName := Some (AuthContext.getUserDisplayName (auth p)) |}.

End Page.

(** ** What the panel renders of its state *)

Module CLIPanelView.


(** [disabled] of the input field. *)
Definition inputDisabled (s : CLIPanel.State) : bool := CLIPanel.isTyping s.

(** The typing indicator is rendered. *)
Definition typingIndicator (s : CLIPanel.State) : bool := CLIPanel.isTyping s.

End CLIPanelView.

(** ** Notions the further properties are stated with *)

Module Behaviour.

(** Every character of a string satisfies a test. *)
Fixpoint allChars (test : ascii -> bool) (s : string) : bool :=
  match s with
  | EmptyString => true
  | String c rest => test c && allChars test rest
  end.

(** The capital letters among the code units below 256: A to Z, and in
    Latin-1 the 23 letters from 192 and the 7 letters from 216. *)
Definition capitals : list nat := seq 65 26 ++ seq 192 23 ++ seq 216 7.

Definition isUpper (c : ascii) : bool :=
  existsb (Nat.eqb (nat_of_ascii c)) capitals.

(** The small letter of a capital, 32 code units above it; every other
    character is its own. *)
Definition small (c : ascii) : ascii :=
  if isUpper c then ascii_of_nat (nat_of_ascii c + 32) else c.

(** A name in small letters without its white space, read from left to
    right. *)
Fixpoint compact (name : string) : string :=
  match name with
  | EmptyString => EmptyString
  | String c rest =>
      if Spec.isWhiteSpace c then compact rest
      else String (small c) (compact rest)
  end.

(** The request a facade call sends to the provider in configured
    mode. *)
Definition requestOf (origin : string) (e : AuthContext.Event)
  : option Supabase.Request :=
  match e with
  | AuthContext.Login email password =>
      Some (Supabase.SignInWithPassword email password)
  | AuthContext.Register name email password =>
      Some (Supabase.SignUp email password
              (<["full_name" := name]> (<["name" := name]> ∅)))
  | AuthContext.LoginWithOAuth provider =>
      Some (Supabase.SignInWithOAuth provider origin)
  | AuthContext.Logout => Some Supabase.SignOut
  | _ => None
  end.

Definition isUnmount (e : AuthContext.Event) : bool :=
  match e with
  | AuthContext.Unmount => true
  | _ => false
  end.

(** Reading a transcript as a dialogue: a user message is expected when
    nothing is pending, an agent message when a reply is pending.  The
    result tells whether a reply is pending at the end; a message out of
    turn gives [None]. *)
Fixpoint dialogueFrom (pending : bool) (ms : list CLIPanel.Message)
  : option bool :=
  match ms with
  | [] => Some pending
  | m :: rest =>
      match pending, CLIPanel.type m with
      | false, CLIPanel.user => dialogueFrom true rest
      | true, CLIPanel.agent => dialogueFrom false rest
      | _, _ => None
      end
  end.

(** The agent messages of a transcript all have one of the given
    contents. *)
Definition agentsSay (allowed : list string) (ms : list CLIPanel.Message)
  : Prop :=
  forall m : CLIPanel.Message,
    m ∈ ms -> CLIPanel.type m = CLIPanel.agent -> CLIPanel.content m ∈ allowed.

(** A handler of the modal announced a success: no error is shown, the
    loading flag is down, and a toast, the success callback and the
    closing callback were emitted, in this order. *)
Definition announced (before after : AuthModal.State) : Prop :=
  AuthModal.error after = None
  /\ AuthModal.isLoading after = false
  /\ exists title description : string,
       AuthModal.effects after
       = (AuthModal.effects before
            ++ [AuthModal.Toast title description; AuthModal.OnAuthSuccess;
                AuthModal.OnClose])%list.

(** A handler of the modal shows an error: the message is displayed,
    the loading flag is down, and nothing was emitted. *)
Definition refused (message : string) (before after : AuthModal.State)
  : Prop :=
  AuthModal.error after = Some message
  /\ AuthModal.isLoading after = false
  /\ AuthModal.effects after = AuthModal.effects before.

(** The random numbers of the timeouts of a run. *)
Definition timeoutDraws (es : list CLIPanel.Event) : list Z :=
  omap (fun e => match e with CLIPanel.Timeout d => Some d | _ => None end) es.

End Behaviour.

(** ** Further concrete forms *)

Module Samples.

(** A register form with matching passwords, still showing the error of
    an earlier attempt. *)
Definition matched : AuthModal.State :=
  {| AuthModal.error := Some "Passwords don't match!";
     AuthModal.isLoading := false;
     AuthModal.registerForm :=
       {| AuthModal.name := "Grace"; AuthModal.email := "grace@x.com";
          AuthModal.password := "secret12";
          AuthModal.confirmPassword := "secret12" |};
     AuthModal.effects := [] |}.

(** The name É Ada, written with the Latin-1 capital 201 and a no-break
    space, 160, and what demoLogin makes of it: éada, with the small
    letter 233. *)
Definition latinName : string :=
  String (ascii_of_nat 201) (String (ascii_of_nat 160) "Ada").

Definition latinLocal : string := String (ascii_of_nat 233) "ada".

End Samples.

(** * Properties *)

(** ** Strings *)

Lemma split_nonempty (sep : ascii) (s : string) : JS.split sep s <> [].
Proof.
  induction s as [|c rest IH]; simpl; [discriminate|].
  destruct (Ascii.eqb c sep); [discriminate|].
  destruct (JS.split sep rest); [contradiction|discriminate].
Qed.

(** [email.split('@')[0]] is the local-part. *)
Lemma first_split_localPart (email : string) :
  JS.first (JS.split "@" email) = Spec.localPart email.
Proof.
  induction email as [|c rest IH]; simpl; [reflexivity|].
  destruct (Ascii.eqb c "@"); [reflexivity|].
  destruct (JS.split "@" rest) as [|piece pieces] eqn:E.
  - exfalso. exact (split_nonempty _ _ E).
  - simpl in *. by rewrite IH.
Qed.

(** The local-part has no [@], and the email is the local-part alone or
    the local-part, an [@], and a rest. *)
Lemma localPart_spec (email : string) :
  (forall i : nat, String.get i (Spec.localPart email) <> Some "@"%char)
  /\ (email = Spec.localPart email
      \/ exists rest : string,
           email = Spec.localPart email ++ String "@" rest).
Proof.
  induction email as [|c tail [IHno IHsplit]]; simpl.
  - split; [intros [|i]; discriminate | by left].
  - destruct (Ascii.eqb_spec c "@") as [->|Hc].
    + split; [intros [|i]; discriminate | right; by exists tail].
    + split.
      * intros [|i]; simpl; [intros [= ->]; by apply Hc | apply IHno].
      * destruct IHsplit as [E|[rest E]].
        -- left. exact (f_equal (String c) E).
        -- right. exists rest. exact (f_equal (String c) E).
Qed.

(** ** Display name *)

Lemma orLit_firstUsable (a b c d : option string) (lit : string) :
  JS.orLit (JS.orElse (JS.orElse (JS.orElse a b) c) d) lit
  = default lit (Spec.firstUsable [a; b; c; d]).
Proof.
  unfold JS.orElse, JS.orLit; simpl.
  destruct a as [[|]|], b as [[|]|], c as [[|]|], d as [[|]|]; reflexivity.
Qed.

Lemma getUserDisplayName_user (w : AuthContext.World) (u : Supabase.User) :
  AuthContext.demoUser w = None ->
  AuthContext.user w = Some u ->
  AuthContext.getUserDisplayName w
  = default "User" (Spec.firstUsable (Spec.candidates (Some u))).
Proof.
  intros Hd Hu. unfold AuthContext.getUserDisplayName. rewrite Hd, Hu.
  rewrite orLit_firstUsable. simpl. unfold Spec.metadata.
  destruct (Supabase.email u) as [e|]; simpl;
    [rewrite first_split_localPart|]; reflexivity.
Qed.

Lemma getUserDisplayName_amended (w : AuthContext.World) :
  AuthContext.getUserDisplayName w = Spec.displayNameAmended w.
Proof.
  unfold Spec.displayNameAmended.
  destruct (AuthContext.demoUser w) as [demo|] eqn:Hd.
  - unfold AuthContext.getUserDisplayName. by rewrite Hd.
  - destruct (AuthContext.user w) as [u|] eqn:Hu.
    + by apply getUserDisplayName_user.
    + unfold AuthContext.getUserDisplayName. by rewrite Hd, Hu.
Qed.

Lemma firstUsable_Some (l : list (option string)) (text : string) :
  Spec.firstUsable l = Some text -> Some text ∈ l /\ text <> "".
Proof.
  induction l as [|c rest IH]; simpl; [discriminate|].
  destruct c as [[|a s]|]; simpl.
  - intros H. destruct (IH H). split; [by right|done].
  - intros [= <-]. split; [by left|discriminate].
  - intros H. destruct (IH H). split; [by right|done].
Qed.

Lemma firstUsable_None (l : list (option string)) :
  Spec.firstUsable l = None <-> Forall (fun c => JS.truthy c = false) l.
Proof.
  induction l as [|c rest IH]; simpl.
  - split; [constructor|reflexivity].
  - destruct (JS.truthy c) eqn:E.
    + split; [by destruct c as [[|]|]|].
      intros H. inversion H; congruence.
    + rewrite IH. split; [by constructor|]. intros H. by inversion H.
Qed.

(** C1, as amended.  The display name is the demo identity's name when
    there is one; otherwise, for a provider user, the first usable of
    metadata full_name, metadata name, metadata preferred_username and
    the local-part of the email, and the literal User when none is
    usable; with no identity at all it is the empty string.  The four
    examples of the claim follow. *)
Theorem getUserDisplayName_precedence :
  (forall w : AuthContext.World,
     AuthContext.getUserDisplayName w = Spec.displayNameAmended w)
  /\ (forall (w : AuthContext.World) (demo : AuthContext.DemoUser),
        AuthContext.demoUser w = Some demo ->
        AuthContext.name demo = "Ada" ->
        AuthContext.getUserDisplayName w = "Ada")
  /\ (forall (w : AuthContext.World) (u : Supabase.User),
        AuthContext.demoUser w = None ->
        AuthContext.user w = Some u ->
        Spec.metadata u "full_name" = Some "Grace Hopper" ->
        AuthContext.getUserDisplayName w = "Grace Hopper")
  /\ (forall (w : AuthContext.World) (u : Supabase.User),
        AuthContext.demoUser w = None ->
        AuthContext.user w = Some u ->
        Supabase.user_metadata u = Some (<["name" := "ghopper"]> ∅) ->
        AuthContext.getUserDisplayName w = "ghopper")
  /\ (forall (w : AuthContext.World) (u : Supabase.User),
        AuthContext.demoUser w = None ->
        AuthContext.user w = Some u ->
        Spec.noUsableMetadata u ->
        Supabase.email u = Some "grace@x.com" ->
        AuthContext.getUserDisplayName w = "grace").
Proof.
  split; [exact getUserDisplayName_amended|].
  split.
  { intros w demo Hd Hn. unfold AuthContext.getUserDisplayName.
    by rewrite Hd. }
  split.
  { intros w u Hd Hu Hm. rewrite (getUserDisplayName_user w u Hd Hu).
    simpl. by rewrite Hm. }
  split.
  { intros w u Hd Hu Hm. rewrite (getUserDisplayName_user w u Hd Hu).
    simpl. unfold Spec.metadata. rewrite Hm. simpl.
    rewrite lookup_insert_ne by done. by rewrite lookup_insert_eq. }
  intros w u Hd Hu (Hf & Hn & Hp) He.
  rewrite (getUserDisplayName_user w u Hd Hu). simpl.
  rewrite Hf, Hn, Hp, He. reflexivity.
Qed.

(** C1 at concrete worlds: a demo identity named Ada next to a provider
    user with metadata, and the three provider users of the claim. *)
Lemma getUserDisplayName_precedence_witness :
  AuthContext.getUserDisplayName
    (Examples.signedInThen
       (Examples.userWith (Some "grace@x.com")
          (Some (<["full_name" := "Grace Hopper"]> ∅))) ∅
       [AuthContext.DemoLogin "Ada"]) = "Ada"
  /\ AuthContext.getUserDisplayName
       (Examples.signedIn
          (Examples.userWith None (Some (<["full_name" := "Grace Hopper"]> ∅)))
          ∅) = "Grace Hopper"
  /\ AuthContext.getUserDisplayName
       (Examples.signedIn
          (Examples.userWith None (Some (<["name" := "ghopper"]> ∅))) ∅)
     = "ghopper"
  /\ AuthContext.getUserDisplayName
       (Examples.signedIn (Examples.userWith (Some "grace@x.com") None) ∅)
     = "grace".
Proof.
  destruct getUserDisplayName_precedence as (_ & Hada & Hfull & Hname & Hmail).
  split; [|split; [|split]].
  - eapply Hada; reflexivity.
  - eapply Hfull; reflexivity.
  - eapply Hname; reflexivity.
  - eapply Hmail; [reflexivity | reflexivity | | reflexivity].
    repeat split.
Defined.

(** C1 as stated fails when there is no identity at all: the code
    returns the empty string where the stated precedence ends in the
    literal User. *)
Lemma getUserDisplayName_not_stated_precedence :
  AuthContext.getUserDisplayName (Examples.demo []) = ""
  /\ Spec.displayName (Examples.demo []) = "User"
  /\ AuthContext.getUserDisplayName (Examples.demo [])
     <> Spec.displayName (Examples.demo []).
Proof. repeat split. discriminate. Qed.

(** C10, as amended.  With no provider user and no demo identity the
    display name is the empty string, not User.  The fallback User is
    reached exactly when there is no demo identity and a provider user
    exists that has no usable metadata field and no email with a
    non-empty local-part: a result User that no identity holds as a
    text comes from such a user, and every such user gets it. *)
Theorem getUserDisplayName_fallback :
  (forall w : AuthContext.World,
     AuthContext.user w = None ->
     AuthContext.demoUser w = None ->
     AuthContext.getUserDisplayName w = ""
     /\ AuthContext.getUserDisplayName w <> "User")
  /\ (forall w : AuthContext.World,
        AuthContext.getUserDisplayName w = "User" ->
        ~ Spec.holds w "User" ->
        AuthContext.demoUser w = None /\ Spec.fallbackOnlyWhenAmended w)
  /\ (forall w : AuthContext.World,
        AuthContext.demoUser w = None ->
        Spec.fallbackOnlyWhenAmended w ->
        AuthContext.getUserDisplayName w = "User").
Proof.
  split; [|split].
  - intros w Hu Hd. unfold AuthContext.getUserDisplayName.
    rewrite Hd, Hu. split; [reflexivity|discriminate].
  - intros w Hres Hno. rewrite getUserDisplayName_amended in Hres.
    unfold Spec.displayNameAmended in Hres.
    destruct (AuthContext.demoUser w) as [demo|] eqn:Hd.
    { exfalso. apply Hno. left. rewrite Hd. simpl. by rewrite Hres. }
    split; [reflexivity|].
    destruct (AuthContext.user w) as [u|] eqn:Hu; [|discriminate].
    destruct (Spec.firstUsable (Spec.candidates (Some u))) as [text|] eqn:Hf.
    { exfalso. apply Hno. right. rewrite Hu.
      simpl in Hres. subst text. by apply firstUsable_Some. }
    apply firstUsable_None in Hf. simpl in Hf.
    inversion_clear Hf as [|? ? Hfull Hf1].
    inversion_clear Hf1 as [|? ? Hname Hf2].
    inversion_clear Hf2 as [|? ? Hpref Hf3].
    inversion_clear Hf3 as [|? ? Hmail _].
    exists u. unfold Spec.noUsableMetadata. by repeat split.
  - intros w Hd (u & Hu & (Hfull & Hname & Hpref) & Hmail).
    rewrite (getUserDisplayName_user w u Hd Hu).
    replace (Spec.firstUsable (Spec.candidates (Some u))) with (@None string);
      [reflexivity|].
    symmetry. apply firstUsable_None. simpl. by repeat constructor.
Qed.

(** C10 at concrete worlds: a mounted demo-mode component with no
    identity, and a provider user whose email has an empty
    local-part. *)
Lemma getUserDisplayName_fallback_witness :
  (AuthContext.getUserDisplayName (Examples.demo []) = ""
   /\ AuthContext.getUserDisplayName (Examples.demo []) <> "User")
  /\ Spec.fallbackOnlyWhenAmended
       (Examples.signedIn (Examples.userWith (Some "@x.com") None) ∅)
  /\ AuthContext.getUserDisplayName
       (Examples.signedIn (Examples.userWith None None) ∅) = "User".
Proof.
  destruct getUserDisplayName_fallback as (Hnone & Honly & Hreach).
  split; [|split].
  - apply Hnone; reflexivity.
  - apply Honly; [reflexivity|].
    intros [H|H]; [discriminate H|].
    vm_compute in H.
    repeat (apply elem_of_cons in H as [H|H]; [discriminate H|]).
    by apply elem_of_nil in H.
  - apply Hreach; [reflexivity|].
    exists (Examples.userWith None None). by repeat split.
Defined.

(** C10 as stated fails for a provider user whose email has an empty
    local-part: the fallback User is reached although the user has an
    email. *)
Lemma getUserDisplayName_fallback_with_email :
  let w := Examples.signedIn (Examples.userWith (Some "@x.com") None) ∅ in
  AuthContext.getUserDisplayName w = "User"
  /\ ~ Spec.holds w "User"
  /\ ~ Spec.fallbackOnlyWhen w.
Proof.
  split; [reflexivity|split].
  - intros [H|H]; [discriminate H|].
    vm_compute in H.
    repeat (apply elem_of_cons in H as [H|H]; [discriminate H|]).
    by apply elem_of_nil in H.
  - intros (u & Hu & _ & He). vm_compute in Hu.
    injection Hu as <-. discriminate He.
Qed.

(** ** The JSON text of a demo user *)

Lemma append_assoc (a b c : string) : (a ++ b) ++ c = a ++ (b ++ c).
Proof.
  induction a as [|x a IH]; [reflexivity|].
  exact (f_equal (String x) IH).
Qed.

(** The escape of a character reads back as that character. *)
Lemma unescape_escapeChar (c : ascii) (tail : string) :
  JSON.unescape (JSON.escapeChar c ++ tail)
  = JSON.prepend c (JSON.unescape tail).
Proof.
  destruct c as [b0 b1 b2 b3 b4 b5 b6 b7].
  destruct b0, b1, b2, b3, b4, b5, b6, b7; reflexivity.
Qed.

(** An escaped string followed by a quote reads back as the string. *)
Lemma unescape_escape (s rest : string) :
  JSON.unescape (JSON.escape s ++ String JSON.dquote rest) = Some (s, rest).
Proof.
  induction s as [|c s IH]; [reflexivity|].
  cbn [JSON.escape]. rewrite append_assoc, unescape_escapeChar, IH.
  reflexivity.
Qed.

Lemma quote_append (s tail : string) :
  JSON.quote s ++ tail
  = String JSON.dquote (JSON.escape s ++ String JSON.dquote tail).
Proof.
  unfold JSON.quote.
  change (String JSON.dquote
            ((JSON.escape s ++ String JSON.dquote "") ++ tail)
          = String JSON.dquote (JSON.escape s ++ String JSON.dquote tail)).
  by rewrite append_assoc.
Qed.

Lemma stripPrefix_append (prefix text : string) :
  JSON.stripPrefix prefix (prefix ++ text) = Some text.
Proof.
  induction prefix as [|c prefix IH]; [by destruct text|].
  change (JSON.stripPrefix (String c prefix) (String c (prefix ++ text))
          = Some text).
  cbn [JSON.stripPrefix]. by rewrite Ascii.eqb_refl.
Qed.

(** The JSON text of a demo user, laid out for reading. *)
Lemma JSON_stringify_layout (demo : AuthContext.DemoUser) :
  AuthContext.JSON_stringify demo
  = ("{" ++ JSON.quote "name" ++ ":")
      ++ String JSON.dquote ""
      ++ JSON.escape (AuthContext.name demo)
      ++ String JSON.dquote
           (("," ++ JSON.quote "email" ++ ":")
              ++ String JSON.dquote ""
              ++ JSON.escape (AuthContext.email demo)
              ++ String JSON.dquote "}").
Proof.
  unfold AuthContext.JSON_stringify.
  rewrite (quote_append (AuthContext.name demo)),
    (quote_append (AuthContext.email demo)).
  rewrite !append_assoc. reflexivity.
Qed.

(** The record is recovered from its JSON text. *)
Lemma readRecord_stringify (demo : AuthContext.DemoUser) :
  Spec.readRecord (AuthContext.JSON_stringify demo) = Some demo.
Proof.
  rewrite JSON_stringify_layout. unfold Spec.readRecord.
  rewrite stripPrefix_append. cbn [mbind option_bind].
  rewrite stripPrefix_append. cbn [mbind option_bind].
  rewrite unescape_escape. cbn [mbind option_bind].
  rewrite stripPrefix_append. cbn [mbind option_bind].
  rewrite stripPrefix_append. cbn [mbind option_bind].
  rewrite unescape_escape. cbn [mbind option_bind].
  by destruct demo.
Qed.

(** Two demo users with the same JSON text are equal. *)
Lemma JSON_stringify_inj (d1 d2 : AuthContext.DemoUser) :
  AuthContext.JSON_stringify d1 = AuthContext.JSON_stringify d2 -> d1 = d2.
Proof.
  intros H. apply (f_equal Spec.readRecord) in H.
  rewrite !readRecord_stringify in H. congruence.
Qed.

(** ** The operations in demo mode *)

(** C7.  In demo mode login returns normally for every email and
    password; when it returns, the demo slot holds the identity whose
    name is the local-part of the email and whose email is the given
    one, and local storage holds its JSON text under demo_user.  That
    text determines the identity: reading it back gives the identity, and
    no other identity has that text.  Every other key of the storage is
    as before.  The provider is not asked and the provider slots are
    untouched. *)
Theorem login_demo_mode
  (supabase : list Supabase.Request -> option Supabase.AuthError)
  (email password : string) (w : AuthContext.World) :
  let demo :=
    {| AuthContext.name := Spec.localPart email;
       AuthContext.email := email |} in
  let r := AuthContext.login false supabase email password w in
  fst r = AuthContext.Returned tt
  /\ AuthContext.demoUser (snd r) = Some demo
  /\ AuthContext.localStorage (snd r)
     = <["demo_user" := AuthContext.JSON_stringify demo]>
         (AuthContext.localStorage w)
  /\ AuthContext.user (snd r) = AuthContext.user w
  /\ AuthContext.session (snd r) = AuthContext.session w
  /\ AuthContext.requests (snd r) = AuthContext.requests w
  /\ AuthContext.localStorage (snd r) !! "demo_user" ≫= Spec.readRecord
     = Some demo
  /\ (forall other : AuthContext.DemoUser,
        AuthContext.localStorage (snd r) !! "demo_user"
        = Some (AuthContext.JSON_stringify other) ->
        other = demo)
  /\ (forall key : string,
        key <> "demo_user" ->
        AuthContext.localStorage (snd r) !! key
        = AuthContext.localStorage w !! key).
Proof.
  intros demo r.
  assert (Hcall : fst r = AuthContext.Returned tt
                  /\ AuthContext.demoUser (snd r) = Some demo
                  /\ AuthContext.localStorage (snd r)
                     = <["demo_user" := AuthContext.JSON_stringify demo]>
                         (AuthContext.localStorage w)
                  /\ AuthContext.user (snd r) = AuthContext.user w
                  /\ AuthContext.session (snd r) = AuthContext.session w
                  /\ AuthContext.requests (snd r) = AuthContext.requests w).
  { subst r demo. unfold AuthContext.login. cbn.
    rewrite first_split_localPart. by repeat split. }
  clearbody r.
  destruct Hcall as (Hret & Hdemo & Hstorage & Huser & Hsession & Hlog).
  do 6 (split; [assumption|]).
  rewrite Hstorage, lookup_insert_eq. split; [|split].
  - apply readRecord_stringify.
  - intros other Hother. apply (inj Some) in Hother.
    symmetry. by apply JSON_stringify_inj.
  - intros key Hne. by apply lookup_insert_ne.
Qed.

(** C7 at a concrete login over an empty storage: the record under
    demo_user belongs to grace and to nobody else, and no other key is
    written. *)
Lemma login_demo_mode_witness :
  {| AuthContext.name := "grace"; AuthContext.email := "grace@x.com" |}
  = {| AuthContext.name := Spec.localPart "grace@x.com";
       AuthContext.email := "grace@x.com" |}
  /\ AuthContext.localStorage
       (snd (AuthContext.login false Examples.accepting "grace@x.com" "pw"
               (Examples.demo [])))
       !! "theme"
     = AuthContext.localStorage (Examples.demo []) !! "theme".
Proof.
  destruct (login_demo_mode Examples.accepting "grace@x.com" "pw"
              (Examples.demo []))
    as (_ & _ & _ & _ & _ & _ & _ & Hother & Hkeys).
  split.
  - apply Hother. reflexivity.
  - apply Hkeys. discriminate.
Defined.

(** C8.  In demo mode loginWithOAuth returns normally for google and for
    github; when it returns, the demo slot holds the identity named
    Google User or Github User, the provider name capitalized followed
    by User, with the email demo@ followed by the provider name and
    .com, and local storage holds its JSON text under demo_user.  That
    text determines the identity: reading it back gives the identity, and
    no other identity has that text.  Every other key of the storage is
    as before, and the provider is not asked. *)
Theorem loginWithOAuth_demo_mode
  (origin : string)
  (supabase : list Supabase.Request -> option Supabase.AuthError)
  (provider : Supabase.OAuthProvider) (w : AuthContext.World) :
  let demo := Spec.oauthIdentity provider in
  let r := AuthContext.loginWithOAuth false origin supabase provider w in
  fst r = AuthContext.Returned tt
  /\ AuthContext.demoUser (snd r) = Some demo
  /\ AuthContext.localStorage (snd r)
     = <["demo_user" := AuthContext.JSON_stringify demo]>
         (AuthContext.localStorage w)
  /\ AuthContext.name demo
     = JS.toUpperCase (JS.charAt 0 (Supabase.providerName provider))
         ++ JS.slice 1 (Supabase.providerName provider) ++ " User"
  /\ AuthContext.email demo
     = "demo@" ++ Supabase.providerName provider ++ ".com"
  /\ AuthContext.localStorage (snd r) !! "demo_user" ≫= Spec.readRecord
     = Some demo
  /\ (forall other : AuthContext.DemoUser,
        AuthContext.localStorage (snd r) !! "demo_user"
        = Some (AuthContext.JSON_stringify other) ->
        other = demo)
  /\ (forall key : string,
        key <> "demo_user" ->
        AuthContext.localStorage (snd r) !! key
        = AuthContext.localStorage w !! key)
  /\ AuthContext.user (snd r) = AuthContext.user w
  /\ AuthContext.session (snd r) = AuthContext.session w
  /\ AuthContext.requests (snd r) = AuthContext.requests w.
Proof.
  intros demo r.
  assert (Hcall : fst r = AuthContext.Returned tt
                  /\ AuthContext.demoUser (snd r) = Some demo
                  /\ AuthContext.localStorage (snd r)
                     = <["demo_user" := AuthContext.JSON_stringify demo]>
                         (AuthContext.localStorage w)).
  { subst r demo. destruct provider; by repeat split. }
  assert (Hrest : AuthContext.user (snd r) = AuthContext.user w
                  /\ AuthContext.session (snd r) = AuthContext.session w
                  /\ AuthContext.requests (snd r) = AuthContext.requests w).
  { subst r. destruct provider; by repeat split. }
  assert (Hname : AuthContext.name demo
                  = JS.toUpperCase (JS.charAt 0 (Supabase.providerName provider))
                      ++ JS.slice 1 (Supabase.providerName provider) ++ " User"
                  /\ AuthContext.email demo
                     = "demo@" ++ Supabase.providerName provider ++ ".com").
  { subst demo. destruct provider; by split. }
  clearbody r demo.
  destruct Hcall as (Hret & Hdemo & Hstorage). destruct Hname as [Hname Hemail].
  do 5 (split; [assumption|]).
  rewrite Hstorage, lookup_insert_eq. split; [|split; [|split]].
  - apply readRecord_stringify.
  - intros other Hother. apply (inj Some) in Hother.
    symmetry. by apply JSON_stringify_inj.
  - intros key Hne. by apply lookup_insert_ne.
  - exact Hrest.
Qed.

(** C8 at a concrete login with github over an empty storage: the record
    under demo_user belongs to Github User and to nobody else, and no
    other key is written. *)
Lemma loginWithOAuth_demo_mode_witness :
  {| AuthContext.name := "Github User";
     AuthContext.email := "demo@github.com" |}
  = Spec.oauthIdentity Supabase.github
  /\ AuthContext.localStorage
       (snd (AuthContext.loginWithOAuth false Examples.origin
               Examples.accepting Supabase.github (Examples.demo [])))
       !! "theme"
     = AuthContext.localStorage (Examples.demo []) !! "theme".
Proof.
  destruct (loginWithOAuth_demo_mode Examples.origin Examples.accepting
              Supabase.github (Examples.demo []))
    as (_ & _ & _ & _ & _ & _ & Hother & Hkeys & _).
  split.
  - apply Hother. reflexivity.
  - apply Hkeys. discriminate.
Defined.

(** ** The configured login *)

(** C4.  In configured mode login asks the provider for a password
    sign-in.  When the provider reports an error, login throws that
    error; when it reports none, login returns.  In both cases the
    session state (user, session, demoUser, isLoading) and local storage
    are as before the call: the only trace of the call is the request in
    the provider's log. *)
Theorem login_configured
  (supabase : list Supabase.Request -> option Supabase.AuthError)
  (email password : string) (w : AuthContext.World) :
  let request := Supabase.SignInWithPassword email password in
  let answer := supabase (AuthContext.requests w ++ [request])%list in
  let r := AuthContext.login true supabase email password w in
  (forall error : Supabase.AuthError,
     answer = Some error ->
     fst r = AuthContext.Threw (JS.ErrorObject (Supabase.message error)))
  /\ (answer = None -> fst r = AuthContext.Returned tt)
  /\ AuthContext.user (snd r) = AuthContext.user w
  /\ AuthContext.session (snd r) = AuthContext.session w
  /\ AuthContext.demoUser (snd r) = AuthContext.demoUser w
  /\ AuthContext.isLoading (snd r) = AuthContext.isLoading w
  /\ AuthContext.localStorage (snd r) = AuthContext.localStorage w
  /\ AuthContext.requests (snd r) = (AuthContext.requests w ++ [request])%list.
Proof.
  unfold AuthContext.login, AuthContext.bind, AuthContext.await. cbn.
  destruct (supabase _) as [e|]; cbn; repeat split; congruence.
Qed.

(** C4 at a concrete call: a rejected and an accepted sign-in of a
    signed-out configured component. *)
Lemma login_configured_witness :
  fst (AuthContext.login true Examples.rejecting "grace@x.com" "pw"
         (AuthContext.initial ∅))
  = AuthContext.Threw (JS.ErrorObject "Invalid login credentials")
  /\ fst (AuthContext.login true Examples.accepting "grace@x.com" "pw"
            (AuthContext.initial ∅))
     = AuthContext.Returned tt.
Proof.
  split.
  - destruct (login_configured Examples.rejecting "grace@x.com" "pw"
                (AuthContext.initial ∅)) as (Herror & _).
    apply (Herror {| Supabase.message := "Invalid login credentials" |}).
    reflexivity.
  - destruct (login_configured Examples.accepting "grace@x.com" "pw"
                (AuthContext.initial ∅)) as (_ & Hnone & _).
    apply Hnone. reflexivity.
Defined.

(** ** The register form *)

(** C5.  When the password and its confirmation differ, handleRegister
    stops at the local check: the form shows the validation message, the
    world of the session manager is returned as it was, so the provider
    received no request, local storage was not written and the session
    state is unchanged, and the form emitted no toast and no callback.
    This holds in demo and in configured mode alike. *)
Theorem handleRegister_mismatch
  (isSupabaseConfigured : bool)
  (supabase : list Supabase.Request -> option Supabase.AuthError)
  (m : AuthModal.State) (w : AuthContext.World) :
  AuthModal.password (AuthModal.registerForm m)
    <> AuthModal.confirmPassword (AuthModal.registerForm m) ->
  let r := AuthModal.handleRegister isSupabaseConfigured supabase m w in
  AuthModal.error (fst r) = Some "Passwords don't match!"
  /\ AuthModal.isLoading (fst r) = AuthModal.isLoading m
  /\ AuthModal.effects (fst r) = AuthModal.effects m
  /\ snd r = w
  /\ AuthContext.requests (snd r) = AuthContext.requests w
  /\ AuthContext.localStorage (snd r) = AuthContext.localStorage w
  /\ AuthContext.user (snd r) = AuthContext.user w
  /\ AuthContext.session (snd r) = AuthContext.session w
  /\ AuthContext.demoUser (snd r) = AuthContext.demoUser w.
Proof.
  intros Hne. unfold AuthModal.handleRegister. cbn.
  destruct (String.eqb_spec (AuthModal.password (AuthModal.registerForm m))
              (AuthModal.confirmPassword (AuthModal.registerForm m)))
    as [E|_]; [contradiction|].
  cbn. by repeat split.
Qed.

(** C5 at a concrete form, password abc and confirmation xyz, in demo
    mode and in configured mode. *)
Lemma handleRegister_mismatch_witness :
  snd (AuthModal.handleRegister false Examples.accepting Examples.mismatched
         (AuthContext.initial ∅)) = AuthContext.initial ∅
  /\ snd (AuthModal.handleRegister true Examples.accepting Examples.mismatched
            (AuthContext.initial ∅)) = AuthContext.initial ∅.
Proof.
  split.
  - apply (handleRegister_mismatch false Examples.accepting
             Examples.mismatched (AuthContext.initial ∅)).
    simpl. discriminate.
  - apply (handleRegister_mismatch true Examples.accepting
             Examples.mismatched (AuthContext.initial ∅)).
    simpl. discriminate.
Defined.

(** ** Invariants of the session manager *)

(** Expose what a handler does to the world. *)
Ltac unfold_handlers :=
  unfold AuthContext.step; cbn;
  unfold AuthContext.mount, AuthContext.unmount, AuthContext.sessionResolved,
    AuthContext.sessionRejected, AuthContext.authStateChange,
    AuthContext.login, AuthContext.register, AuthContext.loginWithOAuth,
    AuthContext.logout, AuthContext.demoLogin, AuthContext.bind,
    AuthContext.await, AuthContext.localStorage_getItem;
  cbn.

Section Invariants.

Variable origin : string.
Variable supabase : list Supabase.Request -> option Supabase.AuthError.
Variable JSON_parse : string -> AuthContext.Outcome (option AuthContext.DemoUser).

Lemma run_cons (c : bool) (e : AuthContext.Event)
  (es : list AuthContext.Event) (w : AuthContext.World) :
  AuthContext.run c origin supabase JSON_parse (e :: es) w
  = AuthContext.run c origin supabase JSON_parse es
      (AuthContext.step c origin supabase JSON_parse w e).
Proof. reflexivity. Qed.

Lemma run_snoc (c : bool) (e : AuthContext.Event)
  (es : list AuthContext.Event) (w : AuthContext.World) :
  AuthContext.run c origin supabase JSON_parse (es ++ [e]) w
  = AuthContext.step c origin supabase JSON_parse
      (AuthContext.run c origin supabase JSON_parse es w) e.
Proof. unfold AuthContext.run. by rewrite foldl_app. Qed.

(** In demo mode no step touches the provider's side of the world. *)
Lemma providerIdle_step (w : AuthContext.World) (e : AuthContext.Event) :
  Spec.providerIdle w ->
  Spec.providerIdle (AuthContext.step false origin supabase JSON_parse w e).
Proof.
  intros (Hu & Hs & Hsub & Hp). unfold Spec.providerIdle.
  destruct e; unfold_handlers; rewrite ?Hp, ?Hsub; cbn; try done.
  destruct (AuthContext.localStorage w !! "demo_user") as [[|a text]|];
    cbn; try done.
  destruct (JSON_parse (String a text)); cbn; done.
Qed.

Lemma providerIdle_run (es : list AuthContext.Event) (w : AuthContext.World) :
  Spec.providerIdle w ->
  Spec.providerIdle (AuthContext.run false origin supabase JSON_parse es w).
Proof.
  revert w. induction es as [|e es IH]; intros w Hw; [exact Hw|].
  rewrite run_cons. apply IH. by apply providerIdle_step.
Qed.

(** In configured mode only demoLogin writes the demo slot. *)
Lemma demoUser_step_configured (w : AuthContext.World) (e : AuthContext.Event) :
  Spec.isDemoLogin e = false ->
  AuthContext.demoUser (AuthContext.step true origin supabase JSON_parse w e)
  = AuthContext.demoUser w.
Proof.
  destruct e; intros He; try discriminate He; unfold_handlers; try done.
  - by destruct (AuthContext.sessionPending w).
  - by destruct (AuthContext.sessionPending w).
  - by destruct (AuthContext.subscribed w).
  - by destruct (supabase _).
  - by destruct (supabase _).
  - by destruct (supabase _).
  - by destruct (supabase _).
Qed.

Lemma demoUser_run_configured (es : list AuthContext.Event)
  (w : AuthContext.World) :
  existsb Spec.isDemoLogin es = false ->
  AuthContext.demoUser (AuthContext.run true origin supabase JSON_parse es w)
  = AuthContext.demoUser w.
Proof.
  revert w. induction es as [|e es IH]; intros w Hes; [reflexivity|].
  simpl in Hes. apply orb_false_iff in Hes as [He Hes].
  rewrite run_cons, IH by exact Hes. by apply demoUser_step_configured.
Qed.

(** The invariant of section 3 holds throughout demo mode, and in
    configured mode as long as demoLogin is not called. *)
Lemma atMostOneIdentity_guarded (c : bool) (storage : gmap string string)
  (es : list AuthContext.Event) :
  c = false \/ existsb Spec.isDemoLogin es = false ->
  Spec.atMostOneIdentity
    (AuthContext.run c origin supabase JSON_parse es
       (AuthContext.initial storage)).
Proof.
  assert (Hidle : Spec.providerIdle (AuthContext.initial storage)) by done.
  intros [->|Hes]; [|destruct c].
  - left. by apply providerIdle_run.
  - right. by rewrite demoUser_run_configured.
  - left. by apply providerIdle_run.
Qed.

End Invariants.

(** C2 fails on the code.  In configured mode, once the provider has
    announced a session, demoLogin fills the demo slot as well: both
    identities are non-null, whatever the provider and the parser are. *)
Theorem demoLogin_configured_both_identities
  (origin : string)
  (supabase : list Supabase.Request -> option Supabase.AuthError)
  (JSON_parse : string -> AuthContext.Outcome (option AuthContext.DemoUser)) :
  let u := Examples.userWith (Some "grace@x.com") None in
  let w :=
    AuthContext.run true origin supabase JSON_parse
      [AuthContext.Mount;
       AuthContext.AuthStateChange (Some (Examples.sessionOf u));
       AuthContext.DemoLogin "Ada"]
      (AuthContext.initial ∅) in
  AuthContext.user w = Some u
  /\ AuthContext.demoUser w
     = Some {| AuthContext.name := "Ada"; AuthContext.email := "ada@demo.com" |}
  /\ ~ Spec.atMostOneIdentity w.
Proof.
  cbn. split; [reflexivity|split; [reflexivity|]].
  intros [H|H]; discriminate H.
Qed.

(** ** Logout *)

(** C6, as amended.  In demo mode, in every world the component can
    reach, logout returns, and after it isLoggedIn is false and the
    persisted demo record is absent.  In configured mode logout asks the
    provider to sign out and returns exactly when the provider reports
    no error; the call itself changes neither the session state nor
    local storage, so isLoggedIn is as before.  The provider identity
    goes away when the session-change notification with a null session
    is processed; isLoggedIn is then false unless a demo identity is
    held. *)
Theorem logout_effect :
  (forall (origin : string)
          (supabase : list Supabase.Request -> option Supabase.AuthError)
          (JSON_parse : string -> AuthContext.Outcome (option AuthContext.DemoUser))
          (storage : gmap string string) (es : list AuthContext.Event),
     let w :=
       AuthContext.run false origin supabase JSON_parse es
         (AuthContext.initial storage) in
     let r := AuthContext.logout false supabase w in
     fst r = AuthContext.Returned tt
     /\ AuthContext.isLoggedIn (snd r) = false
     /\ AuthContext.localStorage (snd r) !! "demo_user" = None)
  /\ (forall (supabase : list Supabase.Request -> option Supabase.AuthError)
             (w : AuthContext.World),
        let r := AuthContext.logout true supabase w in
        (fst r = AuthContext.Returned tt
         <-> supabase (AuthContext.requests w ++ [Supabase.SignOut])%list = None)
        /\ AuthContext.user (snd r) = AuthContext.user w
        /\ AuthContext.session (snd r) = AuthContext.session w
        /\ AuthContext.demoUser (snd r) = AuthContext.demoUser w
        /\ AuthContext.localStorage (snd r) = AuthContext.localStorage w
        /\ AuthContext.isLoggedIn (snd r) = AuthContext.isLoggedIn w)
  /\ (forall w : AuthContext.World,
        AuthContext.subscribed w = true ->
        let w' := snd (AuthContext.authStateChange None w) in
        AuthContext.user w' = None
        /\ AuthContext.session w' = None
        /\ AuthContext.localStorage w' = AuthContext.localStorage w
        /\ AuthContext.isLoggedIn w' = JS.present (AuthContext.demoUser w)).
Proof.
  split; [|split].
  - intros origin supabase JSON_parse storage es w r.
    assert (Hidle : Spec.providerIdle w).
    { apply providerIdle_run. done. }
    destruct Hidle as (Hu & _).
    subst r. unfold AuthContext.logout, AuthContext.isLoggedIn. cbn.
    rewrite Hu. split; [reflexivity|split; [reflexivity|]].
    apply lookup_delete_eq.
  - intros supabase w.
    unfold AuthContext.logout, AuthContext.isLoggedIn, AuthContext.bind,
      AuthContext.await. cbn.
    destruct (supabase _) as [e|]; cbn; repeat split; congruence.
  - intros w Hsub. unfold AuthContext.authStateChange, AuthContext.isLoggedIn.
    rewrite Hsub. cbn. by repeat split.
Qed.

(** C6 in configured mode at a concrete world: a signed-in user logs
    out, the provider accepts, and the null-session notification
    follows. *)
Lemma logout_effect_witness :
  let w :=
    snd (AuthContext.logout true Examples.accepting
           (Examples.signedIn (Examples.userWith (Some "grace@x.com") None) ∅)) in
  AuthContext.subscribed w = true
  /\ AuthContext.isLoggedIn (snd (AuthContext.authStateChange None w)) = false.
Proof.
  split; [reflexivity|].
  destruct logout_effect as (_ & _ & Hnotified).
  destruct (Hnotified
              (snd (AuthContext.logout true Examples.accepting
                      (Examples.signedIn
                         (Examples.userWith (Some "grace@x.com") None) ∅))))
    as (_ & _ & _ & Hlogged); [reflexivity|].
  exact Hlogged.
Defined.

(** C6 as stated fails in configured mode.  A signed-in user logs out
    over a storage that still holds a demo record, and the provider
    accepts the sign-out: logout returns, isLoggedIn is still true and
    the record is still there. *)
Lemma logout_configured_keeps_state :
  let w :=
    Examples.signedIn (Examples.userWith (Some "grace@x.com") None)
      (<["demo_user" := Examples.adaRecord]> ∅) in
  let r := AuthContext.logout true Examples.accepting w in
  fst r = AuthContext.Returned tt
  /\ AuthContext.isLoggedIn (snd r) = true
  /\ AuthContext.localStorage (snd r) !! "demo_user" = Some Examples.adaRecord.
Proof. by repeat split. Qed.

(** ** The persisted record *)

Lemma stored_stored (a b : option AuthContext.DemoUser)
  (storage : gmap string string) :
  Spec.stored a (Spec.stored b storage) = Spec.stored a storage.
Proof.
  destruct a, b; unfold Spec.stored.
  - apply insert_insert_eq.
  - apply insert_delete_eq.
  - apply delete_insert_eq.
  - apply delete_delete_eq.
Qed.

Lemma stored_lookup (a : option AuthContext.DemoUser)
  (storage : gmap string string) :
  Spec.stored a storage !! "demo_user" = AuthContext.JSON_stringify <$> a.
Proof.
  destruct a; unfold Spec.stored;
    [apply lookup_insert_eq | apply lookup_delete_eq].
Qed.

Lemma stored_lookup_ne (a : option AuthContext.DemoUser)
  (storage : gmap string string) (key : string) :
  key <> "demo_user" -> Spec.stored a storage !! key = storage !! key.
Proof.
  intros Hne. destruct a; unfold Spec.stored;
    [by apply lookup_insert_ne | by apply lookup_delete_ne].
Qed.

Section DemoMode.

Variable origin : string.
Variable supabase : list Supabase.Request -> option Supabase.AuthError.
Variable JSON_parse : string -> AuthContext.Outcome (option AuthContext.DemoUser).

(** A facade call in demo mode replaces the demo slot and the record
    under demo_user by what it synthesizes. *)
Lemma facade_step_demo (w : AuthContext.World) (e : AuthContext.Event) :
  Spec.isFacadeCall e = true ->
  let w' := AuthContext.step false origin supabase JSON_parse w e in
  AuthContext.demoUser w' = Spec.synthesized e
  /\ AuthContext.localStorage w'
     = Spec.stored (Spec.synthesized e) (AuthContext.localStorage w).
Proof.
  destruct e as [| | | | |email password|name email password|provider| |];
    intros He; try discriminate He; unfold AuthContext.step; cbn.
  - by rewrite first_split_localPart.
  - done.
  - by destruct provider.
  - done.
Qed.

Lemma facade_run_demo (es : list AuthContext.Event) (e : AuthContext.Event)
  (w : AuthContext.World) :
  forallb Spec.isFacadeCall (es ++ [e]) = true ->
  let w' := AuthContext.run false origin supabase JSON_parse (es ++ [e]) w in
  AuthContext.demoUser w' = Spec.synthesized e
  /\ AuthContext.localStorage w'
     = Spec.stored (Spec.synthesized e) (AuthContext.localStorage w).
Proof.
  revert e. induction es as [|e0 es IH] using rev_ind; intros e Hall.
  - simpl in Hall. apply andb_true_iff in Hall as [He _].
    by apply facade_step_demo.
  - rewrite forallb_app in Hall. apply andb_true_iff in Hall as [Hes He].
    simpl in He. apply andb_true_iff in He as [He _].
    cbn zeta. rewrite run_snoc.
    destruct (facade_step_demo
                (AuthContext.run false origin supabase JSON_parse
                   (es ++ [e0]) w) e He) as [Hd Hs].
    split; [exact Hd|].
    rewrite Hs. destruct (IH e0 Hes) as [_ ->]. apply stored_stored.
Qed.

End DemoMode.

(** *** The record survives a reload *)

Section Reload.

Variable origin : string.
Variable supabase : list Supabase.Request -> option Supabase.AuthError.
Variable JSON_parse : string -> AuthContext.Outcome (option AuthContext.DemoUser).

(** [JSON.parse] reads a record back from its own JSON text. *)
Hypothesis parse_stringify :
  forall demo : AuthContext.DemoUser,
    JSON_parse (AuthContext.JSON_stringify demo)
    = AuthContext.Returned (Some demo).

(** X26.  A component mounted in demo mode over the storage that a
    sequence of facade calls left behind starts with the identity of the
    last call, or with none after a logout, and with loading over,
    provided JSON.parse reads a record back from its own JSON text. *)
Lemma mount_restores_identity (es : list AuthContext.Event)
  (e : AuthContext.Event) (w0 : AuthContext.World) :
  forallb Spec.isFacadeCall (es ++ [e]) = true ->
  let w := AuthContext.run false origin supabase JSON_parse (es ++ [e]) w0 in
  let reloaded :=
    AuthContext.step false origin supabase JSON_parse
      (AuthContext.initial (AuthContext.localStorage w)) AuthContext.Mount in
  AuthContext.demoUser reloaded = Spec.synthesized e
  /\ AuthContext.isLoading reloaded = false.
Proof.
  intros Hall w reloaded.
  destruct (facade_run_demo origin supabase JSON_parse es e w0 Hall)
    as [_ Hstorage].
  fold w in Hstorage. subst reloaded.
  unfold AuthContext.step, AuthContext.handle, AuthContext.mount,
    AuthContext.bind, AuthContext.localStorage_getItem.
  cbn [negb AuthContext.initial AuthContext.localStorage].
  rewrite Hstorage, stored_lookup.
  destruct (Spec.synthesized e) as [demo|]; [|by cbn].
  cbn [fmap option_fmap option_map].
  assert (Htext : exists a text,
             AuthContext.JSON_stringify demo = String a text)
    by (eexists _, _; reflexivity).
  destruct Htext as (a & text & Htext).
  pose proof (parse_stringify demo) as Hparse. rewrite Htext in *.
  rewrite Hparse. by cbn.
Qed.

End Reload.

(** X26 at a concrete reload, after a login in demo mode, with the
    parser that reads records back: the hypothesis on the parser can be
    met. *)
Lemma mount_restores_login :
  AuthContext.demoUser
    (AuthContext.run false Examples.origin Examples.accepting
       Examples.recordParser [AuthContext.Mount]
       (AuthContext.initial
          (AuthContext.localStorage
             (Examples.demo [AuthContext.Login "grace@x.com" "pw"]))))
  = Some {| AuthContext.name := "grace"; AuthContext.email := "grace@x.com" |}.
Proof.
  apply (mount_restores_identity Examples.origin Examples.accepting
           Examples.recordParser
           (fun demo => f_equal AuthContext.Returned (readRecord_stringify demo))
           [] (AuthContext.Login "grace@x.com" "pw") (Examples.demo [])).
  reflexivity.
Defined.

(** C3.  In demo mode, after each call of a sequence of login,
    register, loginWithOAuth and logout calls, local storage is the
    storage the sequence started from with the single key demo_user set
    by the last call alone: it holds the JSON text of the identity that
    call synthesized, or is absent after a logout, and every other key is
    as at the start.  The text determines the identity: reading it back
    gives the synthesized identity, and no other identity has that text.
    The demo slot holds the same identity. *)
Theorem demo_storage_single_record
  (origin : string)
  (supabase : list Supabase.Request -> option Supabase.AuthError)
  (JSON_parse : string -> AuthContext.Outcome (option AuthContext.DemoUser))
  (es : list AuthContext.Event) (e : AuthContext.Event)
  (w0 : AuthContext.World) :
  forallb Spec.isFacadeCall (es ++ [e]) = true ->
  let w := AuthContext.run false origin supabase JSON_parse (es ++ [e]) w0 in
  AuthContext.localStorage w
  = Spec.stored (Spec.synthesized e) (AuthContext.localStorage w0)
  /\ AuthContext.localStorage w !! "demo_user"
     = AuthContext.JSON_stringify <$> Spec.synthesized e
  /\ (forall key : string,
        key <> "demo_user" ->
        AuthContext.localStorage w !! key = AuthContext.localStorage w0 !! key)
  /\ AuthContext.localStorage w !! "demo_user" ≫= Spec.readRecord
     = Spec.synthesized e
  /\ (forall demo : AuthContext.DemoUser,
        AuthContext.localStorage w !! "demo_user"
        = Some (AuthContext.JSON_stringify demo) ->
        Spec.synthesized e = Some demo)
  /\ AuthContext.demoUser w = Spec.synthesized e.
Proof.
  intros Hall w.
  destruct (facade_run_demo origin supabase JSON_parse es e w0 Hall)
    as [Hdemo Hstorage].
  fold w in Hdemo, Hstorage.
  assert (Hkey : AuthContext.localStorage w !! "demo_user"
                 = AuthContext.JSON_stringify <$> Spec.synthesized e).
  { rewrite Hstorage. apply stored_lookup. }
  split; [exact Hstorage|]. split; [exact Hkey|]. split.
  { intros key Hne. rewrite Hstorage. by apply stored_lookup_ne. }
  split.
  { rewrite Hkey. destruct (Spec.synthesized e) as [demo|]; [|reflexivity].
    apply readRecord_stringify. }
  split; [|exact Hdemo].
  intros demo Hdemo'. rewrite Hkey in Hdemo'.
  destruct (Spec.synthesized e) as [demo'|]; [|discriminate].
  change (Some (AuthContext.JSON_stringify demo')
          = Some (AuthContext.JSON_stringify demo)) in Hdemo'.
  apply (inj Some) in Hdemo'. apply JSON_stringify_inj in Hdemo'.
  by rewrite Hdemo'.
Qed.

(** C3 at a concrete sequence: a login, a register, a logout and a
    simulated OAuth login, over an empty storage. *)
Lemma demo_storage_single_record_witness :
  AuthContext.localStorage
    (Examples.demo
       [AuthContext.Login "grace@x.com" "pw";
        AuthContext.Register "Ada" "ada@x.com" "pw";
        AuthContext.Logout;
        AuthContext.LoginWithOAuth Supabase.github])
  = <["demo_user" :=
        AuthContext.JSON_stringify
          {| AuthContext.name := "Github User";
             AuthContext.email := "demo@github.com" |}]> ∅.
Proof.
  apply (demo_storage_single_record Examples.origin Examples.accepting
           Examples.unparsable
           [AuthContext.Login "grace@x.com" "pw";
            AuthContext.Register "Ada" "ada@x.com" "pw";
            AuthContext.Logout]
           (AuthContext.LoginWithOAuth Supabase.github)
           (Examples.demo [])).
  reflexivity.
Defined.

(** ** Random numbers *)

Section DoubleFacts.

Local Open Scope Z_scope.

Lemma ulp_pos (x : Z) : 0 < Double.ulp x.
Proof. unfold Double.ulp. apply Z.pow_pos_nonneg; lia. Qed.

Lemma round_nonneg (x : Z) : 0 <= x -> 0 <= Double.round x.
Proof.
  intros Hx. unfold Double.round.
  pose proof (ulp_pos x) as Hu.
  pose proof (Z.div_pos x (Double.ulp x) Hx Hu) as Hq.
  repeat destruct (_ <? _); try destruct (Z.even _); nia.
Qed.

(** Rounding does not pass the next power of two. *)
Lemma round_le_pow2 (x m : Z) :
  0 <= x < 2 ^ m -> 0 <= m -> Double.round x <= 2 ^ m.
Proof.
  intros [Hx0 Hxm] Hm.
  assert (Hk : 0 <= Z.max 0 (Z.log2 x - 52) <= m).
  { destruct (Z.eq_dec x 0) as [->|Hne]; [simpl; lia|].
    assert (Z.log2 x < m) by (apply Z.log2_lt_pow2; lia). lia. }
  unfold Double.round, Double.ulp.
  set (k := Z.max 0 (Z.log2 x - 52)) in *.
  assert (Hu : 0 < 2 ^ k) by (apply Z.pow_pos_nonneg; lia).
  assert (Hm' : 2 ^ m = 2 ^ (m - k) * 2 ^ k).
  { rewrite <- Z.pow_add_r by lia. f_equal. lia. }
  assert (Hd : 0 < 2 ^ (m - k)) by (apply Z.pow_pos_nonneg; lia).
  pose proof (Z.div_mod x (2 ^ k) ltac:(lia)) as Hdm.
  pose proof (Z.mod_pos_bound x (2 ^ k) Hu) as Hr.
  set (q := x / 2 ^ k) in *. set (r := x mod 2 ^ k) in *.
  assert (Hq : q + 1 <= 2 ^ (m - k)) by nia.
  rewrite Hm'.
  repeat destruct (_ <? _); try destruct (Z.even _); nia.
Qed.

Lemma isRandom_spec (d : Z) :
  Double.isRandom d = true ->
  0 <= d < Double.scale /\ d mod Double.ulp d = 0.
Proof.
  unfold Double.isRandom. intros H.
  apply andb_true_iff in H as [H H3]. apply andb_true_iff in H as [H1 H2].
  apply Z.leb_le in H1. apply Z.ltb_lt in H2. apply Z.eqb_eq in H3.
  done.
Qed.

(** Five times a random number rounds to less than five. *)
Lemma round_times_five (d : Z) :
  Double.isRandom d = true -> Double.round (d * 5) < 5 * Double.scale.
Proof.
  intros Hd. apply isRandom_spec in Hd as [[Hd0 Hd1] Hmod].
  unfold Double.scale in *.
  destruct (Z.lt_ge_cases (d * 5) (2 ^ 1076)) as [Hsmall|Hbig].
  - pose proof (round_le_pow2 (d * 5) 1076 ltac:(lia) ltac:(lia)) as Hle.
    replace (2 ^ 1076) with (4 * 2 ^ 1074) in Hle by reflexivity.
    assert (0 < 2 ^ 1074) by (apply Z.pow_pos_nonneg; lia). lia.
  - replace (2 ^ 1076) with (8 * 2 ^ 1073) in Hbig by reflexivity.
    replace (2 ^ 1074) with (2 * 2 ^ 1073) in Hd1 by reflexivity.
    assert (Hp : 0 < 2 ^ 1073) by (apply Z.pow_pos_nonneg; lia).
    assert (Hlog : Z.log2 d = 1073).
    { apply Z.log2_unique; [lia|].
      replace (2 ^ (1073 + 1)) with (2 * 2 ^ 1073) by reflexivity. lia. }
    assert (Hlog5 : Z.log2 (d * 5) = 1076).
    { apply Z.log2_unique; [lia|].
      replace (2 ^ (1076 + 1)) with (16 * 2 ^ 1073) by reflexivity.
      replace (2 ^ 1076) with (8 * 2 ^ 1073) by reflexivity. lia. }
    unfold Double.round, Double.ulp in *. rewrite Hlog in Hmod. rewrite Hlog5.
    change (Z.max 0 (1073 - 52)) with 1021 in Hmod.
    change (Z.max 0 (1076 - 52)) with 1024.
    apply Z.mod_divide in Hmod as [j Hj]; [|lia].
    replace (2 ^ 1024) with (8 * 2 ^ 1021) by reflexivity.
    replace (2 ^ 1074) with (9007199254740992 * 2 ^ 1021) by reflexivity.
    replace (2 ^ 1073) with (4503599627370496 * 2 ^ 1021) in * by reflexivity.
    assert (HA : 0 < 2 ^ 1021) by (apply Z.pow_pos_nonneg; lia).
    set (A := 2 ^ 1021) in *. clearbody A. subst d.
    replace (j * A * 5) with ((j * 5) * A) by ring.
    rewrite Z.div_mul_cancel_r by lia.
    rewrite Z.mul_mod_distr_r by lia.
    pose proof (Z.div_mod (j * 5) 8 ltac:(lia)) as Hdm.
    pose proof (Z.mod_pos_bound (j * 5) 8 ltac:(lia)) as Hr.
    set (q := j * 5 / 8) in *. set (r := (j * 5) mod 8) in *.
    assert (Hj : j < 9007199254740992) by nia.
    destruct (Z.ltb_spec (2 * (r * A)) (8 * A)) as [Hdown|Hup]; [nia|].
    assert (Hr4 : 4 <= r) by nia.
    assert (Hq : 8 * (q + 1) < 5 * 9007199254740992) by lia.
    destruct (_ <? _); [|destruct (Z.even _)]; nia.
Qed.

Lemma floor_times_five (d : Z) :
  Double.isRandom d = true ->
  0 <= Double.floor (Double.times d 5) < 5.
Proof.
  intros Hd. pose proof (round_times_five d Hd) as Hlt.
  apply isRandom_spec in Hd as [[Hd0 _] _].
  pose proof (round_nonneg (d * 5) ltac:(lia)) as Hge.
  unfold Double.floor, Double.times.
  assert (Hs : 0 < Double.scale)
    by (unfold Double.scale; apply Z.pow_pos_nonneg; lia).
  split; [by apply Z.div_pos|].
  apply Z.div_lt_upper_bound; lia.
Qed.




Lemma delay_two_seconds :
  CLIPanel.delay (Double.scale - 2 ^ 1021) = Double.ofInt 2000.
Proof. vm_compute. reflexivity. Qed.





End DoubleFacts.

(** ** The chat panel *)

(** ** White space *)

Lemma isSpace_isWhiteSpace (c : ascii) : JS.isSpace c = Spec.isWhiteSpace c.
Proof.
  destruct c as [b0 b1 b2 b3 b4 b5 b6 b7].
  destruct b0, b1, b2, b3, b4, b5, b6, b7; reflexivity.
Qed.







(** Every random number picks one of the five canned strings. *)
Lemma randomResponse_canned (d : Z) :
  Double.isRandom d = true ->
  exists c : string,
    CLIPanel.randomResponse d = Some c /\ c ∈ CLIPanel.sampleResponses.
Proof.
  intros Hd. unfold CLIPanel.randomResponse.
  pose proof (floor_times_five d Hd) as Hi.
  change (Z.of_nat (length CLIPanel.sampleResponses)) with 5%Z.
  destruct (lookup_lt_is_Some_2 CLIPanel.sampleResponses
              (Z.to_nat (Double.floor (Double.times d 5)))) as [c Hc].
  { change (length CLIPanel.sampleResponses) with 5. lia. }
  exists c. split; [exact Hc|]. by eapply list_elem_of_lookup_2.
Qed.

Lemma count_app (t : CLIPanel.MessageType) (ms ms' : list CLIPanel.Message) :
  Spec.count t (ms ++ ms') = Spec.count t ms + Spec.count t ms'.
Proof.
  induction ms as [|m ms IH]; [reflexivity|].
  simpl. destruct (CLIPanel.type m), t; simpl; lia.
Qed.

Lemma panelInvariant_step (s : CLIPanel.State) (e : CLIPanel.Event) :
  Spec.panelInvariant s -> Spec.panelInvariant (CLIPanel.step s e).
Proof.
  intros [Hpending Hcount]. unfold Spec.panelInvariant.
  destruct e as [text|d|d]; cbn.
  - done.
  - unfold CLIPanel.handleSubmit.
    destruct (negb (JS.truthy (Some (JS.trim (CLIPanel.input s))))); [done|].
    destruct (CLIPanel.isTyping s) eqn:Htyping; cbn; [by rewrite Htyping|].
    rewrite length_app, count_app, count_app. cbn. lia.
  - unfold CLIPanel.timeout.
    destruct (CLIPanel.timeouts s) as [|d0 later] eqn:Ht;
      [by rewrite Ht|]. cbn.
    rewrite count_app, count_app. cbn in *.
    destruct (CLIPanel.isTyping s); cbn in *; lia.
Qed.

Lemma panelInvariant_run (es : list CLIPanel.Event) :
  Spec.panelInvariant (CLIPanel.run es CLIPanel.initial).
Proof.
  induction es as [|e es IH] using rev_ind; [done|].
  unfold CLIPanel.run. rewrite foldl_app. cbn.
  by apply panelInvariant_step.
Qed.



(** * Further properties *)

(** ** The session manager, event by event *)

(** Split on what a handler branches on. *)
Ltac handler_cases :=
  repeat match goal with
    | |- context [match ?x with _ => _ end] =>
        lazymatch x with
        | context [match _ with _ => _ end] => fail
        | _ => destruct x eqn:?; cbn
        end
    end.

Section Steps.

Variable origin : string.
Variable supabase : list Supabase.Request -> option Supabase.AuthError.
Variable JSON_parse : string -> AuthContext.Outcome (option AuthContext.DemoUser).

(** A step of demo mode sends nothing and does not depend on the
    provider or the origin. *)
Lemma demo_step_silent (origin' : string)
  (supabase' : list Supabase.Request -> option Supabase.AuthError)
  (w : AuthContext.World) (e : AuthContext.Event) :
  AuthContext.requests (AuthContext.step false origin supabase JSON_parse w e)
  = AuthContext.requests w
  /\ AuthContext.step false origin supabase JSON_parse w e
     = AuthContext.step false origin' supabase' JSON_parse w e.
Proof.
  destruct e; unfold_handlers; handler_cases; done.
Qed.

(** A step of configured mode other than demoLogin leaves local storage
    alone and does not depend on the parser. *)
Lemma configured_step_storage
  (JSON_parse' : string -> AuthContext.Outcome (option AuthContext.DemoUser))
  (w : AuthContext.World) (e : AuthContext.Event) :
  Spec.isDemoLogin e = false ->
  AuthContext.localStorage
    (AuthContext.step true origin supabase JSON_parse w e)
  = AuthContext.localStorage w
  /\ AuthContext.step true origin supabase JSON_parse w e
     = AuthContext.step true origin supabase JSON_parse' w e.
Proof.
  destruct e; intros He; try discriminate He; unfold_handlers;
    handler_cases; done.
Qed.

(** The user slot is the user of the session slot, step by step. *)
Lemma user_of_session_step (c : bool) (w : AuthContext.World)
  (e : AuthContext.Event) :
  AuthContext.user w = Supabase.user <$> AuthContext.session w ->
  let w' := AuthContext.step c origin supabase JSON_parse w e in
  AuthContext.user w' = Supabase.user <$> AuthContext.session w'.
Proof.
  intros Hw. destruct c, e; unfold_handlers; handler_cases; done.
Qed.

(** No step raises the loading flag. *)
Lemma isLoading_step (c : bool) (w : AuthContext.World)
  (e : AuthContext.Event) :
  AuthContext.isLoading w = false ->
  AuthContext.isLoading (AuthContext.step c origin supabase JSON_parse w e)
  = false.
Proof.
  intros Hw. destruct c, e; unfold_handlers; handler_cases; done.
Qed.

End Steps.

(** ** The session manager over runs *)

(** X1.  In demo mode no event makes the session manager send a request
    to the provider, and the world it reaches does not depend on the
    provider or on the origin. *)
Theorem demo_mode_never_asks_provider
  (origin origin' : string)
  (supabase supabase' : list Supabase.Request -> option Supabase.AuthError)
  (JSON_parse : string -> AuthContext.Outcome (option AuthContext.DemoUser))
  (es : list AuthContext.Event) (w : AuthContext.World) :
  let w' := AuthContext.run false origin supabase JSON_parse es w in
  AuthContext.requests w' = AuthContext.requests w
  /\ w' = AuthContext.run false origin' supabase' JSON_parse es w.
Proof.
  revert w. induction es as [|e es IH]; intros w; [done|].
  cbn zeta. rewrite !run_cons.
  destruct (demo_step_silent origin supabase JSON_parse origin' supabase' w e)
    as [Hreq Hstep].
  destruct (IH (AuthContext.step false origin supabase JSON_parse w e))
    as [IHreq IHrun].
  split; [by rewrite IHreq|]. by rewrite IHrun, Hstep.
Qed.

(** X2.  In configured mode, as long as demoLogin is not called, no
    event writes local storage or the demo slot, and the world reached
    does not depend on what JSON.parse would do. *)
Theorem configured_mode_never_touches_storage
  (origin : string)
  (supabase : list Supabase.Request -> option Supabase.AuthError)
  (JSON_parse JSON_parse' :
     string -> AuthContext.Outcome (option AuthContext.DemoUser))
  (es : list AuthContext.Event) (w : AuthContext.World) :
  existsb Spec.isDemoLogin es = false ->
  let w' := AuthContext.run true origin supabase JSON_parse es w in
  AuthContext.localStorage w' = AuthContext.localStorage w
  /\ AuthContext.demoUser w' = AuthContext.demoUser w
  /\ w' = AuthContext.run true origin supabase JSON_parse' es w.
Proof.
  intros Hes. split; [|split].
  - revert w Hes. induction es as [|e es IH]; intros w Hes; [done|].
    simpl in Hes. apply orb_false_iff in Hes as [He Hes].
    rewrite run_cons, IH by exact Hes.
    by apply (configured_step_storage origin supabase JSON_parse JSON_parse).
  - by apply demoUser_run_configured.
  - revert w Hes. induction es as [|e es IH]; intros w Hes; [done|].
    simpl in Hes. apply orb_false_iff in Hes as [He Hes].
    rewrite !run_cons, IH by exact Hes.
    by destruct (configured_step_storage origin supabase JSON_parse
                   JSON_parse' w e He) as [_ ->].
Qed.

(** X2 at a concrete run: a configured component over a storage with a
    stale record goes through a sign-in, a notification and a
    sign-out. *)
Lemma configured_mode_never_touches_storage_witness :
  AuthContext.localStorage
    (AuthContext.run true Examples.origin Examples.accepting
       Examples.unparsable
       [AuthContext.Mount; AuthContext.Login "grace@x.com" "pw";
        AuthContext.AuthStateChange
          (Some (Examples.sessionOf (Examples.userWith None None)));
        AuthContext.Logout]
       (AuthContext.initial (<["demo_user" := Examples.adaRecord]> ∅)))
  = <["demo_user" := Examples.adaRecord]> ∅.
Proof.
  apply (configured_mode_never_touches_storage Examples.origin
           Examples.accepting Examples.unparsable Examples.unparsable).
  reflexivity.
Defined.

(** X3.  In every world the session manager reaches, in either mode,
    the user slot is the user of the session slot: none when there is no
    session. *)
Theorem user_follows_session
  (c : bool) (origin : string)
  (supabase : list Supabase.Request -> option Supabase.AuthError)
  (JSON_parse : string -> AuthContext.Outcome (option AuthContext.DemoUser))
  (storage : gmap string string) (es : list AuthContext.Event) :
  let w :=
    AuthContext.run c origin supabase JSON_parse es
      (AuthContext.initial storage) in
  AuthContext.user w = Supabase.user <$> AuthContext.session w.
Proof.
  cbn zeta.
  assert (H0 : AuthContext.user (AuthContext.initial storage)
               = Supabase.user <$> AuthContext.session
                                     (AuthContext.initial storage)) by done.
  revert H0. generalize (AuthContext.initial storage) as w.
  induction es as [|e es IH]; intros w Hw; [exact Hw|].
  rewrite run_cons. apply IH. by apply user_of_session_step.
Qed.

(** X4.  Once the loading flag is down no event raises it again, in
    either mode. *)
Theorem isLoading_stays_false
  (c : bool) (origin : string)
  (supabase : list Supabase.Request -> option Supabase.AuthError)
  (JSON_parse : string -> AuthContext.Outcome (option AuthContext.DemoUser))
  (es : list AuthContext.Event) (w : AuthContext.World) :
  AuthContext.isLoading w = false ->
  AuthContext.isLoading (AuthContext.run c origin supabase JSON_parse es w)
  = false.
Proof.
  revert w. induction es as [|e es IH]; intros w Hw; [exact Hw|].
  rewrite run_cons. apply IH. by apply isLoading_step.
Qed.

(** X4 at a concrete run of configured mode: the session request is
    rejected, then a sign-in and a notification follow. *)
Lemma isLoading_stays_false_witness :
  AuthContext.isLoading
    (AuthContext.run true Examples.origin Examples.rejecting
       Examples.unparsable
       [AuthContext.Login "grace@x.com" "pw"; AuthContext.AuthStateChange None]
       (AuthContext.run true Examples.origin Examples.rejecting
          Examples.unparsable
          [AuthContext.Mount; AuthContext.SessionRejected]
          (AuthContext.initial ∅)))
  = false.
Proof.
  apply isLoading_stays_false. reflexivity.
Defined.

(** ** Mounting in demo mode *)

(** X5.  In demo mode, when the stored record is a text that is not
    empty and on which JSON.parse throws, the mount effect throws that
    error before it lowers the loading flag: the call leaves the loading
    flag, the two identities, the storage and the provider's log as they
    were. *)
Theorem mount_corrupt_record_throws
  (JSON_parse : string -> AuthContext.Outcome (option AuthContext.DemoUser))
  (w : AuthContext.World) (text : string) (err : JS.thrown) :
  AuthContext.localStorage w !! "demo_user" = Some text ->
  text <> "" ->
  JSON_parse text = AuthContext.Threw err ->
  let r := AuthContext.mount false JSON_parse w in
  fst r = AuthContext.Threw err
  /\ snd r = w
  /\ AuthContext.isLoading (snd r) = AuthContext.isLoading w
  /\ AuthContext.demoUser (snd r) = AuthContext.demoUser w.
Proof.
  intros Hstored Hne Hparse r.
  assert (Hmount : r = (AuthContext.Threw err, w)).
  { subst r. unfold AuthContext.mount, AuthContext.bind,
      AuthContext.localStorage_getItem. cbn. rewrite Hstored.
    destruct text as [|a text]; [done|]. by rewrite Hparse. }
  by rewrite Hmount.
Qed.

(** X5 at a concrete world: the record is not JSON, and the loading flag
    of the freshly created component stays raised. *)
Lemma mount_corrupt_record_throws_witness :
  AuthContext.isLoading
    (snd (AuthContext.mount false Examples.unparsable
            (AuthContext.initial (<["demo_user" := "oops"]> ∅))))
  = true.
Proof.
  destruct (mount_corrupt_record_throws Examples.unparsable
              (AuthContext.initial (<["demo_user" := "oops"]> ∅)) "oops"
              (JS.ErrorObject "Unexpected token"))
    as (_ & _ & Hloading & _).
  - reflexivity.
  - discriminate.
  - reflexivity.
  - rewrite Hloading. reflexivity.
Defined.

(** X6.  In demo mode, when no record is stored, or the stored text is
    empty, the mount effect parses nothing: it returns, lowers the
    loading flag and changes nothing else, whatever JSON.parse would
    do. *)
Theorem mount_without_record
  (JSON_parse : string -> AuthContext.Outcome (option AuthContext.DemoUser))
  (w : AuthContext.World) :
  AuthContext.localStorage w !! "demo_user" = None
  \/ AuthContext.localStorage w !! "demo_user" = Some "" ->
  let r := AuthContext.mount false JSON_parse w in
  fst r = AuthContext.Returned tt
  /\ AuthContext.isLoading (snd r) = false
  /\ AuthContext.demoUser (snd r) = AuthContext.demoUser w
  /\ AuthContext.user (snd r) = AuthContext.user w
  /\ AuthContext.session (snd r) = AuthContext.session w
  /\ AuthContext.localStorage (snd r) = AuthContext.localStorage w
  /\ AuthContext.requests (snd r) = AuthContext.requests w.
Proof.
  intros Hstored.
  unfold AuthContext.mount, AuthContext.bind, AuthContext.localStorage_getItem.
  cbn. by destruct Hstored as [-> | ->].
Qed.

(** X6 at a concrete world: an empty text under the key, and a parser
    that would throw. *)
Lemma mount_without_record_witness :
  AuthContext.isLoading
    (snd (AuthContext.mount false Examples.unparsable
            (AuthContext.initial (<["demo_user" := ""]> ∅))))
  = false.
Proof.
  apply (mount_without_record Examples.unparsable
           (AuthContext.initial (<["demo_user" := ""]> ∅))).
  right. reflexivity.
Defined.

(** ** Facade calls *)

(** X7.  In demo mode a facade call followed by a logout gives back the
    world exactly, when it held no demo identity and no record before:
    a login, register or simulated OAuth login and the logout after it
    leave no trace. *)
Theorem login_logout_round_trip
  (origin : string)
  (supabase : list Supabase.Request -> option Supabase.AuthError)
  (JSON_parse : string -> AuthContext.Outcome (option AuthContext.DemoUser))
  (w : AuthContext.World) (e : AuthContext.Event) :
  Spec.isFacadeCall e = true ->
  AuthContext.demoUser w = None ->
  AuthContext.localStorage w !! "demo_user" = None ->
  AuthContext.run false origin supabase JSON_parse [e; AuthContext.Logout] w
  = w.
Proof.
  intros He Hdemo Hstored. destruct w as [u s l d ls rq sub sp].
  cbn in Hdemo, Hstored. subst d.
  destruct e; try discriminate He; cbn; f_equal;
    rewrite ?delete_insert_eq, ?delete_delete_eq; by apply delete_id.
Qed.

(** X7 at a concrete world: a freshly mounted demo-mode component. *)
Lemma login_logout_round_trip_witness :
  AuthContext.run false Examples.origin Examples.accepting
    Examples.unparsable
    [AuthContext.Register "Ada" "ada@x.com" "pw"; AuthContext.Logout]
    (Examples.demo [])
  = Examples.demo [].
Proof.
  apply login_logout_round_trip; reflexivity.
Defined.

(** ** The identities the operations make *)

Lemma lowerChar_small (c : ascii) : JS.lowerChar c = Behaviour.small c.
Proof.
  destruct c as [b0 b1 b2 b3 b4 b5 b6 b7].
  destruct b0, b1, b2, b3, b4, b5, b6, b7; reflexivity.
Qed.

(** Making a letter small neither makes nor unmakes white space. *)
Lemma isSpace_lowerChar (c : ascii) :
  JS.isSpace (JS.lowerChar c) = JS.isSpace c.
Proof.
  destruct c as [b0 b1 b2 b3 b4 b5 b6 b7].
  destruct b0, b1, b2, b3, b4, b5, b6, b7; reflexivity.
Qed.

Lemma small_not_upper (c : ascii) :
  Behaviour.isUpper (Behaviour.small c) = false.
Proof.
  destruct c as [b0 b1 b2 b3 b4 b5 b6 b7].
  destruct b0, b1, b2, b3, b4, b5, b6, b7; reflexivity.
Qed.

(** What demoLogin computes, lower case first and white space removed
    after, is the compact form of the name. *)
Lemma removeSpaces_toLowerCase (name : string) :
  JS.removeSpaces (JS.toLowerCase name) = Behaviour.compact name.
Proof.
  induction name as [|c name IH]; [reflexivity|].
  change (JS.toLowerCase (String c name))
    with (String (JS.lowerChar c) (JS.toLowerCase name)).
  cbn [JS.removeSpaces Behaviour.compact].
  rewrite isSpace_lowerChar, isSpace_isWhiteSpace, lowerChar_small, IH.
  reflexivity.
Qed.

Lemma compact_no_space (name : string) :
  Behaviour.allChars (fun c => negb (Spec.isWhiteSpace c))
    (Behaviour.compact name) = true.
Proof.
  induction name as [|c name IH]; [reflexivity|]. cbn [Behaviour.compact].
  destruct (Spec.isWhiteSpace c) eqn:Hc; [exact IH|].
  cbn [Behaviour.allChars]. rewrite IH, andb_true_r.
  rewrite <- isSpace_isWhiteSpace, <- lowerChar_small, isSpace_lowerChar,
    isSpace_isWhiteSpace. by rewrite Hc.
Qed.

Lemma compact_no_upper (name : string) :
  Behaviour.allChars (fun c => negb (Behaviour.isUpper c))
    (Behaviour.compact name) = true.
Proof.
  induction name as [|c name IH]; [reflexivity|]. cbn [Behaviour.compact].
  destruct (Spec.isWhiteSpace c); [exact IH|].
  cbn [Behaviour.allChars]. by rewrite small_not_upper, IH.
Qed.

Lemma isWhiteSpace_small (c : ascii) :
  Spec.isWhiteSpace (Behaviour.small c) = Spec.isWhiteSpace c.
Proof.
  destruct c as [b0 b1 b2 b3 b4 b5 b6 b7].
  destruct b0, b1, b2, b3, b4, b5, b6, b7; reflexivity.
Qed.

Lemma small_small (c : ascii) :
  Behaviour.small (Behaviour.small c) = Behaviour.small c.
Proof.
  destruct c as [b0 b1 b2 b3 b4 b5 b6 b7].
  destruct b0, b1, b2, b3, b4, b5, b6, b7; reflexivity.
Qed.

(** A compact name is its own compact form. *)
Lemma compact_compact (name : string) :
  Behaviour.compact (Behaviour.compact name) = Behaviour.compact name.
Proof.
  induction name as [|c name IH]; [reflexivity|]. cbn [Behaviour.compact].
  destruct (Spec.isWhiteSpace c) eqn:Hc; [exact IH|].
  cbn [Behaviour.compact]. by rewrite isWhiteSpace_small, Hc, small_small, IH.
Qed.

(** X8.  demoLogin, in either mode, makes and persists a demo identity
    with the given name and the email local@demo.com, where local is
    the name without its white space and with its capital letters, A to
    Z and those of Latin-1, made small: local has no white-space
    character and no capital letter, and a demoLogin under the name
    local gives the same email.  The record read back from the storage
    is the identity.  Afterwards the user is logged in under the given
    name.  The provider is not asked. *)
Theorem demoLogin_identity (name : string) (w : AuthContext.World) :
  let local := Behaviour.compact name in
  let demo :=
    {| AuthContext.name := name; AuthContext.email := local ++ "@demo.com" |} in
  let r := AuthContext.demoLogin name w in
  fst r = AuthContext.Returned tt
  /\ AuthContext.demoUser (snd r) = Some demo
  /\ AuthContext.localStorage (snd r)
     = Spec.stored (Some demo) (AuthContext.localStorage w)
  /\ AuthContext.localStorage (snd r) !! "demo_user" ≫= Spec.readRecord
     = Some demo
  /\ Behaviour.allChars (fun c => negb (Spec.isWhiteSpace c)) local = true
  /\ Behaviour.allChars (fun c => negb (Behaviour.isUpper c)) local = true
  /\ AuthContext.email
       <$> AuthContext.demoUser (snd (AuthContext.demoLogin local w))
     = Some (AuthContext.email demo)
  /\ AuthContext.isLoggedIn (snd r) = true
  /\ AuthContext.getUserDisplayName (snd r) = name
  /\ AuthContext.requests (snd r) = AuthContext.requests w.
Proof.
  intros local demo r.
  assert (Hlocal : AuthContext.email
                     <$> AuthContext.demoUser
                           (snd (AuthContext.demoLogin local w))
                   = Some (AuthContext.email demo)).
  { subst demo local. cbn.
    by rewrite removeSpaces_toLowerCase, compact_compact. }
  assert (Hr : r = (AuthContext.Returned tt,
                    snd (AuthContext.demoLogin name w))) by done.
  assert (Hdemo : AuthContext.demoUser (snd r) = Some demo).
  { subst r demo local. cbn. by rewrite removeSpaces_toLowerCase. }
  assert (Hstorage : AuthContext.localStorage (snd r)
                     = Spec.stored (Some demo) (AuthContext.localStorage w)).
  { subst r demo local. cbn. by rewrite removeSpaces_toLowerCase. }
  assert (Hrest : AuthContext.user (snd r) = AuthContext.user w
                  /\ AuthContext.requests (snd r) = AuthContext.requests w)
    by done.
  destruct Hrest as [Huser Hlog].
  clearbody r.
  split; [by rewrite Hr|]. split; [exact Hdemo|]. split; [exact Hstorage|].
  split; [rewrite Hstorage, stored_lookup; apply readRecord_stringify|].
  split; [apply compact_no_space|]. split; [apply compact_no_upper|].
  split; [exact Hlocal|].
  unfold AuthContext.isLoggedIn, AuthContext.getUserDisplayName.
  rewrite Hdemo. cbn. split; [apply orb_true_r|]. by split.
Qed.

(** X8 at a concrete name with a Latin-1 capital and a no-break space
    in it. *)
Lemma demoLogin_identity_witness :
  AuthContext.email
    <$> AuthContext.demoUser
          (snd (AuthContext.demoLogin Samples.latinName (Examples.demo [])))
  = Some (Samples.latinLocal ++ "@demo.com").
Proof.
  destruct (demoLogin_identity Samples.latinName (Examples.demo []))
    as (_ & Hdemo & _).
  rewrite Hdemo. reflexivity.
Defined.

(** X9.  In demo mode, whatever happened before, right after a login,
    register or simulated OAuth login the user is logged in and the
    display name is the name of the identity the call synthesized: the
    local-part of the email, the registered name, or the provider's
    name followed by User; right after a logout nobody is logged in and
    the display name is empty. *)
Theorem display_name_after_facade_call
  (origin : string)
  (supabase : list Supabase.Request -> option Supabase.AuthError)
  (JSON_parse : string -> AuthContext.Outcome (option AuthContext.DemoUser))
  (storage : gmap string string)
  (es : list AuthContext.Event) (e : AuthContext.Event) :
  Spec.isFacadeCall e = true ->
  let w :=
    AuthContext.run false origin supabase JSON_parse (es ++ [e])
      (AuthContext.initial storage) in
  AuthContext.isLoggedIn w = JS.present (Spec.synthesized e)
  /\ AuthContext.getUserDisplayName w
     = default "" (AuthContext.name <$> Spec.synthesized e).
Proof.
  intros He w. subst w. rewrite run_snoc.
  set (w0 := AuthContext.run false origin supabase JSON_parse es
               (AuthContext.initial storage)).
  assert (Hidle : Spec.providerIdle w0) by (by apply providerIdle_run).
  destruct (providerIdle_step origin supabase JSON_parse w0 e Hidle)
    as (Hu & _).
  destruct (facade_step_demo origin supabase JSON_parse w0 e He) as [Hd _].
  unfold AuthContext.isLoggedIn, AuthContext.getUserDisplayName.
  rewrite Hu, Hd. by destruct (Spec.synthesized e).
Qed.

(** X9 at a concrete run: a stored record is restored on mount, then a
    simulated GitHub login follows. *)
Lemma display_name_after_facade_call_witness :
  AuthContext.getUserDisplayName
    (AuthContext.run false Examples.origin Examples.accepting
       Examples.recordParser
       ([AuthContext.Mount] ++ [AuthContext.LoginWithOAuth Supabase.github])
       (AuthContext.initial (<["demo_user" := Examples.adaRecord]> ∅)))
  = "Github User".
Proof.
  apply (display_name_after_facade_call Examples.origin Examples.accepting
           Examples.recordParser (<["demo_user" := Examples.adaRecord]> ∅)
           [AuthContext.Mount] (AuthContext.LoginWithOAuth Supabase.github)).
  reflexivity.
Defined.

(** X10.  The name a demo-mode login gives the identity never contains
    an at sign and is the beginning of the email: the email is that name
    alone, when it has no at sign, or that name, an at sign and a rest.
    In particular an email that starts with an at sign logs the user in
    under an empty name. *)
Theorem login_demo_name_shape
  (supabase : list Supabase.Request -> option Supabase.AuthError)
  (email password : string) (w : AuthContext.World) :
  exists demo : AuthContext.DemoUser,
    AuthContext.demoUser
      (snd (AuthContext.login false supabase email password w)) = Some demo
    /\ AuthContext.email demo = email
    /\ (forall i : nat,
          String.get i (AuthContext.name demo) <> Some "@"%char)
    /\ (email = AuthContext.name demo
        \/ exists rest : string,
             email = AuthContext.name demo ++ String "@" rest)
    /\ (forall rest : string,
          email = String "@" rest -> AuthContext.name demo = "").
Proof.
  exists {| AuthContext.name := Spec.localPart email;
            AuthContext.email := email |}.
  destruct (localPart_spec email) as [Hno Hsplit].
  split; [|split; [|split; [|split]]].
  - unfold AuthContext.login. cbn. by rewrite first_split_localPart.
  - reflexivity.
  - exact Hno.
  - exact Hsplit.
  - intros rest ->. reflexivity.
Qed.

(** X10 at a concrete email that starts with an at sign. *)
Lemma login_demo_name_shape_witness :
  exists demo : AuthContext.DemoUser,
    AuthContext.demoUser
      (snd (AuthContext.login false Examples.accepting "@x.com" "pw"
              (AuthContext.initial ∅))) = Some demo
    /\ AuthContext.name demo = "".
Proof.
  destruct (login_demo_name_shape Examples.accepting "@x.com" "pw"
              (AuthContext.initial ∅))
    as (demo & Hdemo & _ & _ & _ & Hempty).
  exists demo. split; [exact Hdemo|]. by apply (Hempty "x.com").
Defined.

(** X11.  In configured mode each of login, register, loginWithOAuth
    and logout sends exactly one request to the provider: a password
    sign-in, a sign-up that carries the name as full_name and as name, an
    OAuth sign-in that redirects to the current origin, a sign-out.  It
    throws the provider's error when there is one and returns otherwise,
    and in both cases it leaves every state slot and local storage as
    they were. *)
Theorem facade_call_configured
  (origin : string)
  (supabase : list Supabase.Request -> option Supabase.AuthError)
  (JSON_parse : string -> AuthContext.Outcome (option AuthContext.DemoUser))
  (e : AuthContext.Event) (w : AuthContext.World) :
  Spec.isFacadeCall e = true ->
  let r := AuthContext.handle true origin supabase JSON_parse e w in
  exists request : Supabase.Request,
    Behaviour.requestOf origin e = Some request
    /\ AuthContext.requests (snd r)
       = (AuthContext.requests w ++ [request])%list
    /\ fst r
       = match supabase (AuthContext.requests w ++ [request])%list with
         | Some error =>
             AuthContext.Threw (JS.ErrorObject (Supabase.message error))
         | None => AuthContext.Returned tt
         end
    /\ AuthContext.user (snd r) = AuthContext.user w
    /\ AuthContext.session (snd r) = AuthContext.session w
    /\ AuthContext.demoUser (snd r) = AuthContext.demoUser w
    /\ AuthContext.isLoading (snd r) = AuthContext.isLoading w
    /\ AuthContext.localStorage (snd r) = AuthContext.localStorage w
    /\ AuthContext.subscribed (snd r) = AuthContext.subscribed w
    /\ AuthContext.sessionPending (snd r) = AuthContext.sessionPending w.
Proof.
  intros He.
  destruct e; try discriminate He; cbn;
    unfold AuthContext.login, AuthContext.register,
      AuthContext.loginWithOAuth, AuthContext.logout, AuthContext.bind,
      AuthContext.await; cbn;
    (eexists; split; [reflexivity|]);
    destruct (supabase _); cbn; by repeat split.
Qed.

(** X11 at a concrete call: a registration that the provider rejects. *)
Lemma facade_call_configured_witness :
  exists request : Supabase.Request,
    Behaviour.requestOf Examples.origin
      (AuthContext.Register "Grace" "grace@x.com" "pw") = Some request
    /\ AuthContext.requests
         (snd (AuthContext.handle true Examples.origin Examples.rejecting
                 Examples.unparsable
                 (AuthContext.Register "Grace" "grace@x.com" "pw")
                 (AuthContext.initial ∅)))
       = [request].
Proof.
  destruct (facade_call_configured Examples.origin Examples.rejecting
              Examples.unparsable
              (AuthContext.Register "Grace" "grace@x.com" "pw")
              (AuthContext.initial ∅)) as (request & Hr & Hlog & _).
  - reflexivity.
  - exists request. split; [exact Hr|exact Hlog].
Defined.



(** ** The session the provider announced *)

Section Announced.

Variable origin : string.
Variable supabase : list Supabase.Request -> option Supabase.AuthError.
Variable JSON_parse : string -> AuthContext.Outcome (option AuthContext.DemoUser).

Lemma run_app (c : bool) (es es' : list AuthContext.Event)
  (w : AuthContext.World) :
  AuthContext.run c origin supabase JSON_parse (es ++ es') w
  = AuthContext.run c origin supabase JSON_parse es'
      (AuthContext.run c origin supabase JSON_parse es w).
Proof. unfold AuthContext.run. by rewrite foldl_app. Qed.

Lemma subscribed_step (w : AuthContext.World) (e : AuthContext.Event) :
  Behaviour.isUnmount e = false ->
  AuthContext.subscribed w = true ->
  AuthContext.subscribed (AuthContext.step true origin supabase JSON_parse w e)
  = true.
Proof.
  intros He Hw. destruct e; try discriminate He; unfold_handlers;
    rewrite ?Hw; handler_cases; done.
Qed.

Lemma subscribed_run (es : list AuthContext.Event) (w : AuthContext.World) :
  existsb Behaviour.isUnmount es = false ->
  AuthContext.subscribed w = true ->
  AuthContext.subscribed (AuthContext.run true origin supabase JSON_parse es w)
  = true.
Proof.
  revert w. induction es as [|e es IH]; intros w Hes Hw; [exact Hw|].
  simpl in Hes. apply orb_false_iff in Hes as [He Hes].
  rewrite run_cons. apply IH; [exact Hes|]. by apply subscribed_step.
Qed.

(** A facade call of configured mode leaves the three provider slots
    alone. *)
Lemma facade_step_configured (w : AuthContext.World) (e : AuthContext.Event) :
  Spec.isFacadeCall e = true ->
  let w' := AuthContext.step true origin supabase JSON_parse w e in
  AuthContext.session w' = AuthContext.session w
  /\ AuthContext.user w' = AuthContext.user w
  /\ AuthContext.isLoading w' = AuthContext.isLoading w.
Proof.
  intros He. destruct e; try discriminate He; unfold_handlers;
    handler_cases; done.
Qed.

Lemma facade_run_configured (es : list AuthContext.Event)
  (w : AuthContext.World) :
  forallb Spec.isFacadeCall es = true ->
  let w' := AuthContext.run true origin supabase JSON_parse es w in
  AuthContext.session w' = AuthContext.session w
  /\ AuthContext.user w' = AuthContext.user w
  /\ AuthContext.isLoading w' = AuthContext.isLoading w.
Proof.
  revert w. induction es as [|e es IH]; intros w Hes; [done|].
  simpl in Hes. apply andb_true_iff in Hes as [He Hes].
  cbn zeta. rewrite run_cons.
  destruct (IH (AuthContext.step true origin supabase JSON_parse w e) Hes)
    as (-> & -> & ->).
  by apply facade_step_configured.
Qed.

End Announced.

(** X25.  In configured mode, once the component is mounted and as long
    as it is not unmounted, the session and the user the component holds
    after a session-change notification are the ones the provider
    announced, whatever happened before; the facade calls that follow,
    whether they fail or succeed, keep them, and loading is over. *)
Theorem session_is_last_announced
  (origin : string)
  (supabase : list Supabase.Request -> option Supabase.AuthError)
  (JSON_parse : string -> AuthContext.Outcome (option AuthContext.DemoUser))
  (before after : list AuthContext.Event) (s : option Supabase.Session)
  (w0 : AuthContext.World) :
  existsb Behaviour.isUnmount before = false ->
  forallb Spec.isFacadeCall after = true ->
  let w :=
    AuthContext.run true origin supabase JSON_parse
      (AuthContext.Mount :: before ++ AuthContext.AuthStateChange s :: after)
      w0 in
  AuthContext.session w = s
  /\ AuthContext.user w = Supabase.user <$> s
  /\ AuthContext.isLoading w = false.
Proof.
  intros Hbefore Hafter. cbn zeta. rewrite run_cons, run_app, run_cons.
  set (w1 := AuthContext.run true origin supabase JSON_parse before _).
  assert (Hsub : AuthContext.subscribed w1 = true).
  { apply subscribed_run; [exact Hbefore|]. reflexivity. }
  destruct (facade_run_configured origin supabase JSON_parse after
              (AuthContext.step true origin supabase JSON_parse w1
                 (AuthContext.AuthStateChange s)) Hafter)
    as (-> & -> & ->).
  unfold AuthContext.step. cbn. unfold AuthContext.authStateChange.
  rewrite Hsub. by cbn.
Qed.

(** X25 at a concrete run: the session request resolves without a
    session, the provider then announces one, and a rejected sign-in
    follows. *)
Lemma session_is_last_announced_witness :
  AuthContext.user
    (AuthContext.run true Examples.origin Examples.rejecting
       Examples.unparsable
       (AuthContext.Mount
          :: [AuthContext.SessionResolved None]
          ++ AuthContext.AuthStateChange
               (Some (Examples.sessionOf (Examples.userWith None None)))
          :: [AuthContext.Login "grace@x.com" "pw"])
       (AuthContext.initial ∅))
  = Some (Examples.userWith None None).
Proof.
  apply (session_is_last_announced Examples.origin Examples.rejecting
           Examples.unparsable [AuthContext.SessionResolved None]
           [AuthContext.Login "grace@x.com" "pw"]
           (Some (Examples.sessionOf (Examples.userWith None None)))
           (AuthContext.initial ∅)); reflexivity.
Defined.

(** ** The handlers of the modal *)

(** X13.  The two sign-in forms.  In demo mode handleLogin and
    handleSignIn always announce a success and log the user in under the
    local-part of the email of their form.  In configured mode they
    announce a success when the provider accepts the password sign-in
    and show the provider's message, emitting nothing, when it reports
    an error; in both cases isLoggedIn is what it was before, since the
    session arrives by notification only. *)
Theorem sign_in_forms_outcome
  (supabase : list Supabase.Request -> option Supabase.AuthError)
  (m : AuthForms.State) (w : AuthContext.World) :
  (let r := AuthForms.handleLogin false supabase m w in
   Behaviour.announced (AuthForms.modal m) (AuthForms.modal (fst r))
   /\ AuthContext.isLoggedIn (snd r) = true
   /\ AuthContext.getUserDisplayName (snd r)
      = Spec.localPart (AuthForms.email (AuthForms.loginForm m)))
  /\ (let r := AuthForms.handleSignIn false supabase m w in
      Behaviour.announced (AuthForms.modal m) (AuthForms.modal (fst r))
      /\ AuthContext.isLoggedIn (snd r) = true
      /\ AuthContext.getUserDisplayName (snd r)
         = Spec.localPart (AuthForms.email (AuthForms.signinForm m)))
  /\ (let r := AuthForms.handleLogin true supabase m w in
      let answer :=
        supabase
          (AuthContext.requests w
             ++ [Supabase.SignInWithPassword
                   (AuthForms.email (AuthForms.loginForm m))
                   (AuthForms.password (AuthForms.loginForm m))])%list in
      (answer = None ->
       Behaviour.announced (AuthForms.modal m) (AuthForms.modal (fst r)))
      /\ (forall error : Supabase.AuthError,
            answer = Some error ->
            Behaviour.refused (Supabase.message error)
              (AuthForms.modal m) (AuthForms.modal (fst r)))
      /\ AuthContext.isLoggedIn (snd r) = AuthContext.isLoggedIn w)
  /\ (let r := AuthForms.handleSignIn true supabase m w in
      let answer :=
        supabase
          (AuthContext.requests w
             ++ [Supabase.SignInWithPassword
                   (AuthForms.email (AuthForms.signinForm m))
                   (AuthForms.password (AuthForms.signinForm m))])%list in
      (answer = None ->
       Behaviour.announced (AuthForms.modal m) (AuthForms.modal (fst r)))
      /\ (forall error : Supabase.AuthError,
            answer = Some error ->
            Behaviour.refused (Supabase.message error)
              (AuthForms.modal m) (AuthForms.modal (fst r)))
      /\ AuthContext.isLoggedIn (snd r) = AuthContext.isLoggedIn w).
Proof.
  unfold Behaviour.announced, Behaviour.refused.
  split; [|split; [|split]].
  - unfold AuthForms.handleLogin, AuthContext.isLoggedIn,
      AuthContext.getUserDisplayName. cbn.
    rewrite first_split_localPart, orb_true_r. repeat split; eauto.
  - unfold AuthForms.handleSignIn, AuthContext.isLoggedIn,
      AuthContext.getUserDisplayName. cbn.
    rewrite first_split_localPart, orb_true_r. repeat split; eauto.
  - unfold AuthForms.handleLogin, AuthContext.login, AuthContext.bind,
      AuthContext.await, AuthContext.isLoggedIn. cbn.
    destruct (supabase _) as [error|]; cbn;
      (split; [intros Hanswer; try discriminate Hanswer; by eauto|]);
      (split; [intros error' Hanswer; try discriminate Hanswer;
               by injection Hanswer as <-|]);
      reflexivity.
  - unfold AuthForms.handleSignIn, AuthContext.login, AuthContext.bind,
      AuthContext.await, AuthContext.isLoggedIn. cbn.
    destruct (supabase _) as [error|]; cbn;
      (split; [intros Hanswer; try discriminate Hanswer; by eauto|]);
      (split; [intros error' Hanswer; try discriminate Hanswer;
               by injection Hanswer as <-|]);
      reflexivity.
Qed.

(** X13 at a concrete form in configured mode: the provider rejects the
    credentials and the form shows its message. *)
Lemma sign_in_forms_outcome_witness :
  AuthModal.error
    (AuthForms.modal
       (fst (AuthForms.handleLogin true Examples.rejecting AuthForms.initial
               (AuthContext.initial ∅))))
  = Some "Invalid login credentials".
Proof.
  destruct (sign_in_forms_outcome Examples.rejecting AuthForms.initial
              (AuthContext.initial ∅)) as (_ & _ & (_ & Hrefused & _) & _).
  destruct (Hrefused {| Supabase.message := "Invalid login credentials" |})
    as (Herror & _); [reflexivity|exact Herror].
Defined.

(** X14.  The OAuth buttons.  In demo mode handleOAuthLogin always
    announces a success and logs the user in as Google User or Github
    User.  In configured mode it asks the provider for an OAuth sign-in
    that redirects to the current origin, announces a success when the
    provider accepts and shows the provider's message when it reports an
    error, and leaves isLoggedIn as it was. *)
Theorem handleOAuthLogin_outcome
  (origin : string)
  (supabase : list Supabase.Request -> option Supabase.AuthError)
  (provider : Supabase.OAuthProvider)
  (m : AuthForms.State) (w : AuthContext.World) :
  (let r := AuthForms.handleOAuthLogin false origin supabase provider m w in
   Behaviour.announced (AuthForms.modal m) (AuthForms.modal (fst r))
   /\ AuthContext.isLoggedIn (snd r) = true
   /\ AuthContext.getUserDisplayName (snd r)
      = AuthContext.name (Spec.oauthIdentity provider))
  /\ (let r := AuthForms.handleOAuthLogin true origin supabase provider m w in
      let answer :=
        supabase
          (AuthContext.requests w
             ++ [Supabase.SignInWithOAuth provider origin])%list in
      (answer = None ->
       Behaviour.announced (AuthForms.modal m) (AuthForms.modal (fst r)))
      /\ (forall error : Supabase.AuthError,
            answer = Some error ->
            Behaviour.refused (Supabase.message error)
              (AuthForms.modal m) (AuthForms.modal (fst r)))
      /\ AuthContext.isLoggedIn (snd r) = AuthContext.isLoggedIn w).
Proof.
  unfold Behaviour.announced, Behaviour.refused. split.
  - unfold AuthForms.handleOAuthLogin, AuthContext.isLoggedIn,
      AuthContext.getUserDisplayName. cbn.
    rewrite orb_true_r. destruct provider; repeat split; eauto.
  - unfold AuthForms.handleOAuthLogin, AuthContext.loginWithOAuth,
      AuthContext.bind, AuthContext.await, AuthContext.isLoggedIn. cbn.
    destruct (supabase _) as [error|]; cbn;
      (split; [intros Hanswer; try discriminate Hanswer; by eauto|]);
      (split; [intros error' Hanswer; try discriminate Hanswer;
               by injection Hanswer as <-|]);
      reflexivity.
Qed.

(** X14 at a concrete click in configured mode: the provider accepts
    the GitHub sign-in. *)
Lemma handleOAuthLogin_outcome_witness :
  Behaviour.announced (AuthForms.modal AuthForms.initial)
    (AuthForms.modal
       (fst (AuthForms.handleOAuthLogin true Examples.origin
               Examples.accepting Supabase.github AuthForms.initial
               (AuthContext.initial ∅)))).
Proof.
  destruct (handleOAuthLogin_outcome Examples.origin Examples.accepting
              Supabase.github AuthForms.initial (AuthContext.initial ∅))
    as (_ & Haccepted & _).
  apply Haccepted. reflexivity.
Defined.

(** X15.  The register form with matching passwords.  In demo mode
    handleRegister always announces a success and logs the user in under
    the name of the form, with the email of the form.  In configured
    mode it asks the provider for a sign-up, announces a success when
    the provider accepts and shows the provider's message when it
    reports an error, and leaves isLoggedIn as it was. *)
Theorem handleRegister_outcome
  (supabase : list Supabase.Request -> option Supabase.AuthError)
  (m : AuthModal.State) (w : AuthContext.World) :
  AuthModal.password (AuthModal.registerForm m)
  = AuthModal.confirmPassword (AuthModal.registerForm m) ->
  let form := AuthModal.registerForm m in
  (let r := AuthModal.handleRegister false supabase m w in
   Behaviour.announced m (fst r)
   /\ AuthContext.demoUser (snd r)
      = Some {| AuthContext.name := AuthModal.name form;
                AuthContext.email := AuthModal.email form |}
   /\ AuthContext.isLoggedIn (snd r) = true
   /\ AuthContext.getUserDisplayName (snd r) = AuthModal.name form)
  /\ (let r := AuthModal.handleRegister true supabase m w in
      let answer :=
        supabase
          (AuthContext.requests w
             ++ [Supabase.SignUp (AuthModal.email form)
                   (AuthModal.password form)
                   (<["full_name" := AuthModal.name form]>
                      (<["name" := AuthModal.name form]> ∅))])%list in
      (answer = None -> Behaviour.announced m (fst r))
      /\ (forall error : Supabase.AuthError,
            answer = Some error ->
            Behaviour.refused (Supabase.message error) m (fst r))
      /\ AuthContext.isLoggedIn (snd r) = AuthContext.isLoggedIn w).
Proof.
  intros Hmatch. unfold Behaviour.announced, Behaviour.refused.
  split.
  - unfold AuthModal.handleRegister, AuthContext.isLoggedIn,
      AuthContext.getUserDisplayName.
    rewrite Hmatch, String.eqb_refl. cbn.
    rewrite orb_true_r. repeat split; eauto.
  - unfold AuthModal.handleRegister, AuthContext.register, AuthContext.bind,
      AuthContext.await, AuthContext.isLoggedIn.
    rewrite Hmatch, String.eqb_refl. cbn.
    destruct (supabase _) as [error|]; cbn;
      (split; [intros Hanswer; try discriminate Hanswer; by eauto|]);
      (split; [intros error' Hanswer; try discriminate Hanswer;
               by injection Hanswer as <-|]);
      reflexivity.
Qed.

(** X15 at a concrete form in demo mode: Grace registers with matching
    passwords after a failed attempt. *)
Lemma handleRegister_outcome_witness :
  AuthContext.getUserDisplayName
    (snd (AuthModal.handleRegister false Examples.accepting Samples.matched
            (AuthContext.initial ∅)))
  = "Grace".
Proof.
  destruct (handleRegister_outcome Examples.accepting Samples.matched
              (AuthContext.initial ∅)) as ((_ & _ & _ & Hname) & _).
  - reflexivity.
  - exact Hname.
Defined.

(** ** The page *)

(** Expose what an event does to the page. *)
Ltac unfold_page :=
  unfold Page.step, Page.rerender, Page.handle, Page.submitted, Page.onAuth,
    Index.handleLoginClick, AuthForms.handleLogin, AuthForms.handleSignIn,
    AuthForms.handleOAuthLogin, AuthForms.handleRegister,
    AuthModal.handleRegister, AuthContext.isLoggedIn;
  unfold_handlers.

Section PageDemo.

Variable origin : string.
Variable supabase : list Supabase.Request -> option Supabase.AuthError.
Variable JSON_parse : string -> AuthContext.Outcome (option AuthContext.DemoUser).

Lemma page_demo_step (p : Page.State) (e : Page.Event) :
  Spec.providerIdle (Page.auth p) ->
  Index.showCLI (Page.index p) = AuthContext.isLoggedIn (Page.auth p) ->
  Index.showAuthModal (Page.index p)
    && AuthContext.isLoggedIn (Page.auth p) = false ->
  let p' := Page.step false origin supabase JSON_parse p e in
  Spec.providerIdle (Page.auth p')
  /\ Index.showCLI (Page.index p') = AuthContext.isLoggedIn (Page.auth p')
  /\ Index.showAuthModal (Page.index p')
       && AuthContext.isLoggedIn (Page.auth p') = false.
Proof.
  intros Hidle Hshow Hmodal.
  destruct p as [[cli modal scrolls] f [u s l d ls rq sub sp]].
  destruct Hidle as (Hu & Hs & Hsub & Hp).
  unfold AuthContext.isLoggedIn in Hshow, Hmodal. cbn in *. subst.
  unfold Spec.providerIdle.
  destruct e; unfold_page; destruct d, modal; cbn in *;
    rewrite ?drop_app_length; cbn; try done.
  all: destruct (String.eqb _ _); cbn;
    rewrite ?drop_app_length, ?drop_all; cbn; done.
Qed.

End PageDemo.

(** X16.  In demo mode the chat panel is on the page exactly when a user
    is logged in, and the modal is never open over a logged-in page:
    after the page is mounted over any storage and after every sequence
    of clicks, form edits, submissions and provider callbacks, showCLI
    equals isLoggedIn and showAuthModal implies that nobody is logged
    in. *)
Theorem panel_follows_login_demo_mode
  (origin : string)
  (supabase : list Supabase.Request -> option Supabase.AuthError)
  (JSON_parse : string -> AuthContext.Outcome (option AuthContext.DemoUser))
  (storage : gmap string string) (es : list Page.Event) :
  let p :=
    Page.run false origin supabase JSON_parse es
      (Page.start false origin supabase JSON_parse storage) in
  Index.showCLI (Page.index p) = AuthContext.isLoggedIn (Page.auth p)
  /\ (Index.showAuthModal (Page.index p) = true ->
      AuthContext.isLoggedIn (Page.auth p) = false).
Proof.
  cbn zeta.
  set (p0 := Page.start false origin supabase JSON_parse storage).
  assert (Hstart :
            Spec.providerIdle (Page.auth p0)
            /\ Index.showCLI (Page.index p0)
               = AuthContext.isLoggedIn (Page.auth p0)
            /\ Index.showAuthModal (Page.index p0)
                 && AuthContext.isLoggedIn (Page.auth p0) = false).
  { subst p0. unfold Page.start, Page.rerender.
    set (w := AuthContext.step false origin supabase JSON_parse
                (AuthContext.initial storage) AuthContext.Mount).
    assert (Hidle : Spec.providerIdle w)
      by (by apply providerIdle_step).
    cbn. destruct (AuthContext.isLoggedIn w) eqn:Hlogged; cbn;
      by rewrite ?Hlogged. }
  clearbody p0. revert p0 Hstart.
  induction es as [|e es IH]; intros p (Hidle & Hshow & Hmodal).
  - split; [exact Hshow|]. cbn. intros Hopen. by rewrite Hopen in Hmodal.
  - apply IH. by apply page_demo_step.
Qed.

(** X16 at a concrete page: on a fresh demo-mode page the login button
    is clicked, which opens the modal. *)
Lemma panel_follows_login_demo_mode_witness :
  AuthContext.isLoggedIn
    (Page.auth
       (Page.run false Examples.origin Examples.accepting Examples.unparsable
          [Page.ClickLogin]
          (Page.start false Examples.origin Examples.accepting
             Examples.unparsable ∅)))
  = false.
Proof.
  destruct (panel_follows_login_demo_mode Examples.origin Examples.accepting
              Examples.unparsable ∅ [Page.ClickLogin]) as [_ Hmodal].
  apply Hmodal. reflexivity.
Defined.

(** X17.  In configured mode a form submission that the provider accepts
    puts the chat panel on the page and closes the modal although
    isLoggedIn is still what it was: the panel is shown before the
    session arrives. *)
Theorem panel_shown_before_session
  (origin : string)
  (supabase : list Supabase.Request -> option Supabase.AuthError)
  (JSON_parse : string -> AuthContext.Outcome (option AuthContext.DemoUser))
  (p : Page.State) :
  supabase
    (AuthContext.requests (Page.auth p)
       ++ [Supabase.SignInWithPassword
             (AuthForms.email (AuthForms.loginForm (Page.forms p)))
             (AuthForms.password (AuthForms.loginForm (Page.forms p)))])%list
  = None ->
  let p' := Page.step true origin supabase JSON_parse p Page.SubmitLogin in
  Index.showCLI (Page.index p') = true
  /\ Index.showAuthModal (Page.index p') = false
  /\ Index.scrolls (Page.index p') = S (Index.scrolls (Page.index p))
  /\ AuthContext.isLoggedIn (Page.auth p')
     = AuthContext.isLoggedIn (Page.auth p)
  /\ AuthContext.user (Page.auth p') = AuthContext.user (Page.auth p).
Proof.
  intros Hanswer. destruct p as [i f w]. cbn in Hanswer.
  unfold_page. rewrite Hanswer. cbn.
  rewrite drop_app_length. cbn.
  rewrite Bool.eqb_reflx. by cbn.
Qed.

(** X17 at a concrete page: a signed-out page in configured mode whose
    provider accepts. *)
Lemma panel_shown_before_session_witness :
  let p' :=
    Page.step true Examples.origin Examples.accepting Examples.unparsable
      (Page.start true Examples.origin Examples.accepting Examples.unparsable
         ∅)
      Page.SubmitLogin in
  Index.showCLI (Page.index p') = true
  /\ AuthContext.isLoggedIn (Page.auth p') = false.
Proof.
  destruct (panel_shown_before_session Examples.origin Examples.accepting
              Examples.unparsable
              (Page.start true Examples.origin Examples.accepting
                 Examples.unparsable ∅)) as (Hshow & _ & _ & Hlogged & _).
  - reflexivity.
  - split; [exact Hshow|]. rewrite Hlogged. reflexivity.
Defined.

(** X18.  When the provider announces that the session is gone, the
    user is logged out, unless a demo identity is held, but the chat
    panel stays where it was: nothing takes it off the page but a click
    on the logout button. *)
Theorem panel_survives_session_end
  (c : bool) (origin : string)
  (supabase : list Supabase.Request -> option Supabase.AuthError)
  (JSON_parse : string -> AuthContext.Outcome (option AuthContext.DemoUser))
  (p : Page.State) :
  AuthContext.subscribed (Page.auth p) = true ->
  AuthContext.demoUser (Page.auth p) = None ->
  let p' :=
    Page.step c origin supabase JSON_parse p (Page.AuthStateChange None) in
  AuthContext.isLoggedIn (Page.auth p') = false
  /\ Index.showCLI (Page.index p') = Index.showCLI (Page.index p)
  /\ Navbar.label (Page.navbar p') = "Login".
Proof.
  intros Hsub Hdemo. destruct p as [i f w]. cbn in Hsub, Hdemo.
  unfold Page.navbar, Navbar.render. unfold_page.
  rewrite Hsub, Hdemo. cbn.
  destruct (JS.present (AuthContext.user w)); by cbn.
Qed.

(** X18 at a concrete page: the provider announces a session, which puts
    the panel on the page, and then announces its end. *)
Lemma panel_survives_session_end_witness :
  let p :=
    Page.run true Examples.origin Examples.accepting Examples.unparsable
      [Page.AuthStateChange
         (Some (Examples.sessionOf (Examples.userWith None None)));
       Page.AuthStateChange None]
      (Page.start true Examples.origin Examples.accepting Examples.unparsable
         ∅) in
  AuthContext.isLoggedIn (Page.auth p) = false
  /\ Index.showCLI (Page.index p) = true.
Proof.
  destruct (panel_survives_session_end true Examples.origin Examples.accepting
              Examples.unparsable
              (Page.run true Examples.origin Examples.accepting
                 Examples.unparsable
                 [Page.AuthStateChange
                    (Some (Examples.sessionOf (Examples.userWith None None)))]
                 (Page.start true Examples.origin Examples.accepting
                    Examples.unparsable ∅)))
    as (Hlogged & Hshow & _).
  - reflexivity.
  - reflexivity.
  - split; [exact Hlogged|]. exact Hshow.
Defined.

(** X19.  The login button of the navbar.  When nobody is logged in a
    click only opens the modal: the session manager is not touched.
    When a user is logged in the click calls logout; if logout returns
    the panel is taken off the page, and if logout throws, which only a
    provider error makes it do, the error goes to the caller and the
    page is left as it was. *)
Theorem handleLoginClick_outcome
  (c : bool)
  (supabase : list Supabase.Request -> option Supabase.AuthError)
  (s : Index.State) (w : AuthContext.World) :
  let r := Index.handleLoginClick c supabase s w in
  (AuthContext.isLoggedIn w = false ->
   r = (AuthContext.Returned tt, (Index.setShowAuthModal true s, w)))
  /\ (AuthContext.isLoggedIn w = true ->
      (fst r = AuthContext.Returned tt ->
       Index.showCLI (fst (snd r)) = false
       /\ Index.showAuthModal (fst (snd r)) = Index.showAuthModal s)
      /\ (forall err : JS.thrown,
            fst r = AuthContext.Threw err ->
            fst (snd r) = s
            /\ c = true
            /\ exists error : Supabase.AuthError,
                 supabase (AuthContext.requests w ++ [Supabase.SignOut])%list
                 = Some error
                 /\ err = JS.ErrorObject (Supabase.message error))).
Proof.
  unfold Index.handleLoginClick. split; intros Hlogged; rewrite Hlogged.
  - reflexivity.
  - destruct c; unfold AuthContext.logout, AuthContext.bind,
      AuthContext.await; cbn.
    + destruct (supabase _) as [error|]; cbn; split; try done.
      intros err [= <-]. repeat split. by exists error.
    + split; [done|]. intros err Herr. discriminate Herr.
Qed.

(** X19 at a concrete page: a user signed in through the provider clicks
    the button and the provider rejects the sign-out. *)
Lemma handleLoginClick_outcome_witness :
  fst (snd (Index.handleLoginClick true Examples.rejecting
              (Index.setShowCLI true Index.initial)
              (Examples.signedIn (Examples.userWith None None) ∅)))
  = Index.setShowCLI true Index.initial.
Proof.
  destruct (handleLoginClick_outcome true Examples.rejecting
              (Index.setShowCLI true Index.initial)
              (Examples.signedIn (Examples.userWith None None) ∅))
    as (_ & Hlogged).
  destruct Hlogged as (_ & Hthrew); [reflexivity|].
  destruct (Hthrew (JS.ErrorObject "Invalid login credentials"))
    as (Hsame & _); [reflexivity|exact Hsame].
Defined.

(** ** The navbar *)

Lemma getUserDisplayName_provider_nonempty (w : AuthContext.World)
  (u : Supabase.User) :
  AuthContext.demoUser w = None ->
  AuthContext.user w = Some u ->
  AuthContext.getUserDisplayName w <> "".
Proof.
  intros Hd Hu. rewrite (getUserDisplayName_user w u Hd Hu).
  destruct (Spec.firstUsable (Spec.candidates (Some u))) as [text|] eqn:Hf;
    cbn; [|discriminate].
  by destruct (firstUsable_Some _ _ Hf).
Qed.

(** X20.  The navbar of the page greets the user exactly when somebody
    is logged in and the display name is not empty, and then with the
    display name.  A user who is logged in through the provider alone is
    always greeted, since that display name is never empty; a demo
    identity with an empty name, such as the one a demo login with an
    email that starts with an at sign makes, is logged in without a
    greeting. *)
Theorem navbar_welcome (p : Page.State) :
  let w := Page.auth p in
  let view := Page.navbar p in
  (forall n : string,
     Navbar.welcome view = Some n
     <-> AuthContext.isLoggedIn w = true
         /\ AuthContext.getUserDisplayName w = n /\ n <> "")
  /\ (forall u : Supabase.User,
        AuthContext.demoUser w = None ->
        AuthContext.user w = Some u ->
        Navbar.welcome view = Some (AuthContext.getUserDisplayName w)
        /\ Navbar.label view = "Logout")
  /\ (forall demo : AuthContext.DemoUser,
        AuthContext.demoUser w = Some demo ->
        AuthContext.name demo = "" ->
        Navbar.welcome view = None /\ Navbar.label view = "Logout").
Proof.
  cbn zeta. unfold Page.navbar, Navbar.render. cbn.
  split; [|split].
  - intros n. destruct (AuthContext.isLoggedIn (Page.auth p)); cbn.
    + destruct (AuthContext.getUserDisplayName (Page.auth p)) as [|a s];
        cbn; split.
      * discriminate.
      * by intros (_ & <- & Hn).
      * intros [= <-]. by repeat split.
      * by intros (_ & <- & _).
    + split; [discriminate|]. by intros [? _].
  - intros u Hd Hu.
    pose proof (getUserDisplayName_provider_nonempty _ u Hd Hu) as Hne.
    unfold AuthContext.isLoggedIn. rewrite Hu. cbn.
    by destruct (AuthContext.getUserDisplayName (Page.auth p)).
  - intros demo Hd Hname.
    unfold AuthContext.isLoggedIn, AuthContext.getUserDisplayName.
    rewrite Hd, Hname. cbn. by rewrite orb_true_r.
Qed.

(** X20 at concrete pages: a provider user without metadata and email,
    and a demo login with the email @x.com. *)
Lemma navbar_welcome_witness :
  Navbar.welcome
    (Page.navbar
       (Page.run true Examples.origin Examples.accepting Examples.unparsable
          [Page.AuthStateChange
             (Some (Examples.sessionOf (Examples.userWith None None)))]
          (Page.start true Examples.origin Examples.accepting
             Examples.unparsable ∅)))
  = Some "User"
  /\ Navbar.welcome
       (Page.navbar
          (Page.run false Examples.origin Examples.accepting
             Examples.unparsable
             [Page.SetLoginForm
                {| AuthForms.email := "@x.com"; AuthForms.password := "pw" |};
              Page.SubmitLogin]
             (Page.start false Examples.origin Examples.accepting
                Examples.unparsable ∅)))
     = None.
Proof.
  split.
  - destruct (navbar_welcome
                (Page.run true Examples.origin Examples.accepting
                   Examples.unparsable
                   [Page.AuthStateChange
                      (Some (Examples.sessionOf
                               (Examples.userWith None None)))]
                   (Page.start true Examples.origin Examples.accepting
                      Examples.unparsable ∅)))
      as (_ & Hprovider & _).
    destruct (Hprovider (Examples.userWith None None)) as [Hwelcome _];
      [reflexivity|reflexivity|exact Hwelcome].
  - destruct (navbar_welcome
                (Page.run false Examples.origin Examples.accepting
                   Examples.unparsable
                   [Page.SetLoginForm
                      {| AuthForms.email := "@x.com";
                         AuthForms.password := "pw" |};
                    Page.SubmitLogin]
                   (Page.start false Examples.origin Examples.accepting
                      Examples.unparsable ∅)))
      as (_ & _ & Hdemo).
    destruct (Hdemo {| AuthContext.name := "";
                       AuthContext.email := "@x.com" |}) as [Hwelcome _];
      [reflexivity|reflexivity|exact Hwelcome].
Defined.

(** ** The transcript of the chat panel *)

Lemma dialogueFrom_app (pending : bool) (ms ms' : list CLIPanel.Message) :
  Behaviour.dialogueFrom pending (ms ++ ms')
  = Behaviour.dialogueFrom pending ms
      ≫= (fun pending' => Behaviour.dialogueFrom pending' ms').
Proof.
  revert pending. induction ms as [|m ms IH]; intros pending; [done|].
  cbn. destruct pending, (CLIPanel.type m); by rewrite ?IH.
Qed.

Lemma panel_run_snoc (es : list CLIPanel.Event) (e : CLIPanel.Event)
  (s : CLIPanel.State) :
  CLIPanel.run (es ++ [e]) s = CLIPanel.step (CLIPanel.run es s) e.
Proof. unfold CLIPanel.run. by rewrite foldl_app. Qed.

(** X21.  The transcript of the panel is always a dialogue: it starts
    with the greeting, after which user messages and agent messages
    alternate, beginning with a user message; it ends with a user message
    exactly while a reply is pending, which is when the typing indicator
    is shown and the input field is disabled. *)
Theorem transcript_alternates (es : list CLIPanel.Event) :
  let s := CLIPanel.run es CLIPanel.initial in
  exists tail : list CLIPanel.Message,
    CLIPanel.messages s = (CLIPanel.initialMessages ++ tail)%list
    /\ Behaviour.dialogueFrom false tail
       = Some (CLIPanelView.typingIndicator s)
    /\ CLIPanelView.inputDisabled s = CLIPanelView.typingIndicator s.
Proof.
  cbn zeta. unfold CLIPanelView.typingIndicator, CLIPanelView.inputDisabled.
  induction es as [|e es (tail & Hm & Hd & _)] using rev_ind.
  { exists []. by repeat split. }
  pose proof (panelInvariant_run es) as [Hpending _].
  rewrite panel_run_snoc.
  set (s := CLIPanel.run es CLIPanel.initial) in *.
  destruct e as [text|d|d]; cbn.
  - exists tail. by repeat split.
  - unfold CLIPanel.handleSubmit.
    destruct (negb (JS.truthy (Some (JS.trim (CLIPanel.input s))))); cbn;
      [exists tail; by repeat split|].
    destruct (CLIPanel.isTyping s) eqn:Htyping; cbn;
      [exists tail; rewrite Htyping; by repeat split|].
    exists (tail ++ [ {| CLIPanel.type := CLIPanel.user;
                         CLIPanel.content := CLIPanel.input s |} ])%list.
    split; [by rewrite Hm, <- app_assoc|].
    split; [by rewrite dialogueFrom_app, Hd|done].
  - unfold CLIPanel.timeout.
    destruct (CLIPanel.timeouts s) as [|d0 later] eqn:Ht;
      [exists tail; by repeat split|].
    destruct (CLIPanel.isTyping s) eqn:Htyping; [|discriminate Hpending].
    cbn.
    exists (tail ++ [ {| CLIPanel.type := CLIPanel.agent;
                         CLIPanel.content :=
                           default "" (CLIPanel.randomResponse d) |} ])%list.
    split; [by rewrite Hm, <- app_assoc|].
    split; [by rewrite dialogueFrom_app, Hd|done].
Qed.

(** X22.  When every timeout draws a number that Math.random can
    return, every agent message of the transcript is the greeting or one
    of the five canned strings, whatever the user typed and
    submitted. *)
Theorem agent_messages_are_canned (es : list CLIPanel.Event) :
  Forall (fun d => Double.isRandom d = true) (Behaviour.timeoutDraws es) ->
  Behaviour.agentsSay
    ((CLIPanel.content <$> CLIPanel.initialMessages)
       ++ CLIPanel.sampleResponses)%list
    (CLIPanel.messages (CLIPanel.run es CLIPanel.initial)).
Proof.
  unfold Behaviour.agentsSay, Behaviour.timeoutDraws.
  induction es as [|e es IH] using rev_ind; intros Hdraws m Hin Hagent.
  { cbn in Hin. apply list_elem_of_singleton in Hin as ->. by left. }
  rewrite omap_app in Hdraws. apply Forall_app in Hdraws as [Hes He].
  specialize (IH Hes). rewrite panel_run_snoc in Hin.
  set (s := CLIPanel.run es CLIPanel.initial) in *.
  destruct e as [text|d|d]; cbn in Hin.
  - by apply IH.
  - unfold CLIPanel.handleSubmit in Hin.
    destruct (negb (JS.truthy (Some (JS.trim (CLIPanel.input s))))
              || CLIPanel.isTyping s); [by apply IH|].
    cbn in Hin. apply elem_of_app in Hin as [Hin|Hin]; [by apply IH|].
    apply list_elem_of_singleton in Hin as ->. discriminate Hagent.
  - unfold CLIPanel.timeout in Hin.
    destruct (CLIPanel.timeouts s); [by apply IH|].
    cbn in Hin. apply elem_of_app in Hin as [Hin|Hin]; [by apply IH|].
    apply list_elem_of_singleton in Hin as ->. cbn.
    cbn in He. apply Forall_inv in He.
    destruct (randomResponse_canned d He) as (c & -> & Hc).
    cbn. by right.
Qed.

(** X22 at a concrete run: two questions and their replies. *)
Lemma agent_messages_are_canned_witness :
  Behaviour.agentsSay
    ((CLIPanel.content <$> CLIPanel.initialMessages)
       ++ CLIPanel.sampleResponses)%list
    (CLIPanel.messages
       (CLIPanel.run
          [CLIPanel.Type_ "ls"; CLIPanel.Submit 0; CLIPanel.Timeout 0;
           CLIPanel.Type_ "pwd"; CLIPanel.Submit 0; CLIPanel.Timeout 0]
          CLIPanel.initial)).
Proof.
  apply agent_messages_are_canned.
  repeat constructor.
Defined.

(** X23.  No event removes or rewrites a message: the transcript after
    more events begins with the transcript before them. *)
Theorem transcript_only_grows (es es' : list CLIPanel.Event)
  (s : CLIPanel.State) :
  CLIPanel.messages (CLIPanel.run es s)
    `prefix_of` CLIPanel.messages (CLIPanel.run (es ++ es') s).
Proof.
  induction es' as [|e es' IH] using rev_ind.
  { by rewrite app_nil_r. }
  rewrite app_assoc, panel_run_snoc.
  etrans; [exact IH|].
  set (s' := CLIPanel.run (es ++ es') s).
  destruct e as [text|d|d]; cbn.
  - done.
  - unfold CLIPanel.handleSubmit.
    destruct (_ || _); [done|]. by apply prefix_app_r.
  - unfold CLIPanel.timeout.
    destruct (CLIPanel.timeouts s'); [done|]. by apply prefix_app_r.
Qed.


